(** * ERPNext code analyzer

    A shallow embedding of [Extractor.py] (entity extraction over a Python
    syntax tree, catalog construction over a directory) and [Analyzer.py]
    (the [ERPNextAnalyzer] node visitor, the document flattener, the index
    builder and the retriever), with the properties of the specification
    stated and proved over it.

    Python strings are modelled as [string]; one [ascii] stands for one
    character, so [s[:200]] is the prefix of length at most 200. *)

From Stdlib Require Import String Ascii List ZArith Bool Arith Lia.
Import ListNotations.
Open Scope string_scope.
Open Scope list_scope.

Set Warnings "-register-all".

(** ** The part of Python's [ast] the program inspects *)

Module Ast.

Inductive constant : Type :=
| CNone
| CBool (b : bool)
| CInt (n : Z)
| CStr (s : string)
| CBytes (s : string).

(** Expressions.  [Name], [Attribute], [Call] and [Constant] are the classes
    the program tests with [isinstance]; the others stand for the shapes it
    treats as "anything else". *)
Inductive expr : Type :=
| Name (id : string)
| Attribute (value : expr) (attr : string)
| Call (func : expr) (args : list expr) (keywords : list (option string * expr))
| Constant (value : constant)
| Subscript (value : expr) (slice : expr)
| BinOp (left : expr) (op : string) (right : expr)
| Await (value : expr)
| Lambda (params : list string) (body : expr).

(** [ast.arguments]: the program reads [args] only. *)
Record arguments : Type := mk_arguments {
  posonlyargs : list string;
  args : list string;
  vararg : option string;
  kwonlyargs : list string;
  kwarg : option string;
  defaults : list expr
}.

(** Statements.  Every statement carries [lineno]; definitions also carry
    [end_lineno].  [ExceptHandler] is the node class of one [except] clause
    of a [Try]. *)
Inductive stmt : Type :=
| FunctionDef (name : string) (args : arguments) (body : list stmt)
    (decorator_list : list expr) (lineno : Z) (end_lineno : Z)
| AsyncFunctionDef (name : string) (args : arguments) (body : list stmt)
    (decorator_list : list expr) (lineno : Z) (end_lineno : Z)
| ClassDef (name : string) (bases : list expr) (body : list stmt)
    (decorator_list : list expr) (lineno : Z) (end_lineno : Z)
| Return (value : option expr) (lineno : Z)
| Assign (targets : list expr) (value : expr) (lineno : Z)
| Expr (value : expr) (lineno : Z)
| If (test : expr) (body : list stmt) (orelse : list stmt) (lineno : Z)
| While (test : expr) (body : list stmt) (orelse : list stmt) (lineno : Z)
| For (target : expr) (iter : expr) (body : list stmt) (orelse : list stmt)
    (lineno : Z)
| With (items : list expr) (body : list stmt) (lineno : Z)
| Try (body : list stmt) (handlers : list excepthandler)
    (orelse : list stmt) (finalbody : list stmt) (lineno : Z)
| Import (names : list string) (lineno : Z)
| ImportFrom (module : option string) (names : list string) (level : Z)
    (lineno : Z)
| Pass (lineno : Z)
with excepthandler : Type :=
| ExceptHandler (type : option expr) (name : option string)
    (body : list stmt) (lineno : Z).

(** [node.lineno] *)
Definition lineno_of (node : stmt) : Z :=
  match node with
  | FunctionDef _ _ _ _ l _ | AsyncFunctionDef _ _ _ _ l _
  | ClassDef _ _ _ _ l _ => l
  | Return _ l | Assign _ _ l | Expr _ l | If _ _ _ l | While _ _ _ l
  | For _ _ _ _ l | With _ _ l | Try _ _ _ _ l | Import _ l
  | ImportFrom _ _ _ l | Pass l => l
  end.

(** [inspect.cleandoc] is library code; [ast.get_docstring] applies it to
    the text of a leading string-constant expression statement. *)
Definition get_docstring (cleandoc : string -> string) (body : list stmt)
  : option string :=
  match body with
  | Expr (Constant (CStr text)) _ :: _ => Some (cleandoc text)
  | _ => None
  end.

End Ast.
Import Ast.

(** ** Python values shared by both source files *)

(** The exceptions the modelled code can meet.  All but [KeyboardInterrupt]
    derive from [Exception]. *)
Inductive exception : Type :=
| OSError (msg : string)
| UnicodeDecodeError (msg : string)
| SyntaxError (msg : string)
| ValueError (msg : string)
| RecursionError
| KeyError (key : string)
| TypeError (msg : string)
| AttributeError (msg : string)
| IndexError (msg : string)
| RuntimeError (msg : string)
| KeyboardInterrupt.

Definition is_Exception (e : exception) : bool :=
  match e with
  | KeyboardInterrupt => false
  | _ => true
  end.

Inductive result (A : Type) : Type :=
| Ok (a : A)
| Raise (e : exception).
Arguments Ok {A} a.
Arguments Raise {A} e.

Definition bind {A B : Type} (r : result A) (k : A -> result B) : result B :=
  match r with
  | Ok a => k a
  | Raise e => Raise e
  end.

Notation "x <- r ;; k" := (bind r (fun x => k))
  (at level 61, r at next level, right associativity).

(** A [for] loop whose body may raise: the first exception ends the loop. *)
Fixpoint for_each {A S : Type} (body : S -> A -> result S) (l : list A)
    (s : S) : result S :=
  match l with
  | [] => Ok s
  | x :: rest => s' <- body s x ;; for_each body rest s'
  end.

(** [l[idx]] on a list: a negative index counts from the end. *)
Definition list_getitem {A : Type} (l : list A) (idx : Z) : result A :=
  let n := Z.of_nat (length l) in
  let i := (if idx <? 0 then idx + n else idx)%Z in
  if ((0 <=? i) && (i <? n))%Z then
    match nth_error l (Z.to_nat i) with
    | Some x => Ok x
    | None => Raise (IndexError "list index out of range")
    end
  else Raise (IndexError "list index out of range").

(** Truth value of a string: [if s]. *)
Definition truthy (s : string) : bool := negb (s =? "").

(** [s[:n]] *)
Fixpoint slice_to (n : nat) (s : string) : string :=
  match n, s with
  | S n', String c s' => String c (slice_to n' s')
  | _, _ => EmptyString
  end.

(** A [dict] with string keys, in insertion order: [d[k] = v] replaces the
    value of a key that is present and appends a key that is absent. *)
Definition dict (V : Type) : Type := list (string * V).

Fixpoint dict_set {V : Type} (d : dict V) (k : string) (v : V) : dict V :=
  match d with
  | [] => [(k, v)]
  | (k', v') :: rest =>
      if k' =? k then (k', v) :: rest else (k', v') :: dict_set rest k v
  end.

Fixpoint dict_get {V : Type} (d : dict V) (k : string) : option V :=
  match d with
  | [] => None
  | (k', v') :: rest => if k' =? k then Some v' else dict_get rest k
  end.

(** ** Extractor.py *)

Module Extractor.

(** The [while isinstance(current, ast.Attribute)] loop of
    [get_attribute_name]: [parts] grows by [append], [current] moves to
    [current.value]. *)
Fixpoint attribute_loop (current : expr) (parts : list string)
  : expr * list string :=
  match current with
  | Attribute value attr => attribute_loop value (parts ++ [attr])
  | _ => (current, parts)
  end.

Definition get_attribute_name (node : expr) : string :=
  let '(current, parts) := attribute_loop node [] in
  let parts :=
    match current with
    | Name id => parts ++ [id]
    | _ => parts
    end in
  String.concat "." (rev parts).

Fixpoint get_decorator_name (node : expr) : string :=
  match node with
  | Name id => id
  | Attribute _ _ => get_attribute_name node
  | Call func _ _ => get_decorator_name func
  | _ => "unknown_decorator"
  end.

(** The segments of an attribute chain in source order: the root identifier
    (when the chain is rooted in a name) followed by the attributes, left to
    right.  A root that is not a name contributes no segment. *)
Fixpoint chain_segments (e : expr) : list string :=
  match e with
  | Name id => [id]
  | Attribute value attr => chain_segments value ++ [attr]
  | _ => []
  end.

(** The three shapes decorator resolution knows. *)
Definition resolvable_shape (e : expr) : bool :=
  match e with
  | Name _ | Attribute _ _ | Call _ _ _ => true
  | _ => false
  end.

(** *** Entity records

    The dictionaries returned by [extract_function] and [extract_class],
    one field per key. *)

Record function_entity : Type := mk_function_entity {
  fn_type : string;
  fn_kind : string;
  fn_name : string;
  fn_line : Z;
  fn_end_line : Z;
  fn_params : list string;
  fn_decorators : list string;
  fn_docstring : string;
  fn_is_async : bool;
  fn_parent_class : option string
}.

Record class_entity : Type := mk_class_entity {
  cls_type : string;
  cls_name : string;
  cls_line : Z;
  cls_end_line : Z;
  cls_bases : list string;
  cls_decorators : list string;
  cls_docstring : string;
  cls_methods : list function_entity;
  cls_method_count : nat
}.

Inductive entity : Type :=
| EClass (c : class_entity)
| EFunction (f : function_entity).

Section Extraction.

(** [inspect.cleandoc], used by [ast.get_docstring]. *)
Variable cleandoc : string -> string.

(** [ast.get_docstring(node) or ""] *)
Definition docstring_or_empty (body : list stmt) : string :=
  match get_docstring cleandoc body with
  | Some d => if truthy d then d else ""
  | None => ""
  end.

(** [extract_function(node, source_code, parent_class)].  The node is given
    by its fields; [is_async] is [isinstance(node, ast.AsyncFunctionDef)]. *)
Definition extract_function (is_async : bool) (name : string)
    (node_args : arguments) (body : list stmt) (decorator_list : list expr)
    (lineno end_lineno : Z) (source_code : string)
    (parent_class : option string) : function_entity :=
  let docstring := docstring_or_empty body in
  let params := fold_left (fun params arg => params ++ [arg])
                  (args node_args) [] in
  let decorators := map get_decorator_name decorator_list in
  let kind :=
    if match parent_class with Some c => truthy c | None => false end then
      if name =? "__init__" then "constructor"
      else if String.prefix "_" name then "private_method"
      else "method"
    else "function" in
  {| fn_type := "function";
     fn_kind := kind;
     fn_name := name;
     fn_line := lineno;
     fn_end_line := end_lineno;
     fn_params := params;
     fn_decorators := decorators;
     fn_docstring := if truthy docstring then slice_to 200 docstring else "";
     fn_is_async := is_async;
     fn_parent_class := parent_class |}.

(** The [for base in node.bases] loop of [extract_class]. *)
Definition collect_bases (node_bases : list expr) : list string :=
  fold_left (fun bases base =>
               match base with
               | Name id => bases ++ [id]
               | Attribute _ _ => bases ++ [get_attribute_name base]
               | _ => bases
               end) node_bases [].

(** The [for item in node.body] loop of [extract_class]. *)
Definition collect_methods (class_name : string) (source_code : string)
    (class_body : list stmt) : list function_entity :=
  fold_left (fun methods item =>
               match item with
               | FunctionDef n a b d l e =>
                   methods ++ [extract_function false n a b d l e source_code
                                 (Some class_name)]
               | AsyncFunctionDef n a b d l e =>
                   methods ++ [extract_function true n a b d l e source_code
                                 (Some class_name)]
               | _ => methods
               end) class_body [].

(** [extract_class(node, source_code)], the [ClassDef] given by its fields. *)
Definition extract_class (name : string) (node_bases : list expr)
    (body : list stmt) (decorator_list : list expr) (lineno end_lineno : Z)
    (source_code : string) : class_entity :=
  let docstring := docstring_or_empty body in
  let bases := collect_bases node_bases in
  let decorators := map get_decorator_name decorator_list in
  let methods := collect_methods name source_code body in
  {| cls_type := "class";
     cls_name := name;
     cls_line := lineno;
     cls_end_line := end_lineno;
     cls_bases := bases;
     cls_decorators := decorators;
     cls_docstring := if truthy docstring then slice_to 200 docstring else "";
     cls_methods := methods;
     cls_method_count := length methods |}.

(** The [for node in tree.body] loop of [extract_entities_from_file]. *)
Definition extract_entities (tree_body : list stmt) (source_code : string)
  : list entity :=
  fold_left (fun entities node =>
               match node with
               | ClassDef n bs b d l e =>
                   entities ++ [EClass (extract_class n bs b d l e source_code)]
               | FunctionDef n a b d l e =>
                   entities ++ [EFunction (extract_function false n a b d l e
                                             source_code None)]
               | AsyncFunctionDef n a b d l e =>
                   entities ++ [EFunction (extract_function true n a b d l e
                                             source_code None)]
               | _ => entities
               end) tree_body [].

(** *** The file system and the parser, as the catalog builder uses them *)

(** [Path.read_text(encoding="utf-8")] *)
Variable read_text : string -> result string.
(** [ast.parse(source_code, filename=...)]: the body of the [Module]. *)
Variable parse : string -> result (list stmt).
(** [Path.is_file()], [Path.suffix], [Path.parent], [list(Path.rglob("*.py"))]
    and [str(file_path.relative_to(base))].  [is_file] and [rglob_py] are
    the answers of a discovery that returns; module [Discovery] below has
    the run with a discovery that may raise. *)
Variable is_file : string -> bool.
Variable suffix : string -> string.
Variable parent : string -> string.
Variable rglob_py : string -> list string.
Variable relative_to : string -> string -> result string.

Definition extract_entities_from_file (file_path : string)
  : result (list entity) :=
  source_code <- read_text file_path ;;
  tree_body <- parse source_code ;;
  Ok (extract_entities tree_body source_code).

Definition catalog : Type := dict (list entity).

(** The body of the [try] statement for one file. *)
Definition try_body (path file_path : string) (all_entities : catalog)
  : result catalog :=
  entities <- extract_entities_from_file file_path ;;
  match entities with
  | [] => Ok all_entities
  | _ :: _ =>
      relative_path <- relative_to file_path (parent path) ;;
      Ok (dict_set all_entities relative_path entities)
  end.

(** One iteration of [for file_path in python_files]: [except Exception]
    catches what derives from [Exception] and goes on with [all_entities]
    as it was; anything else propagates. *)
Definition process_file (path file_path : string) (all_entities : catalog)
  : result catalog :=
  match try_body path file_path all_entities with
  | Ok all_entities' => Ok all_entities'
  | Raise e => if is_Exception e then Ok all_entities else Raise e
  end.

Fixpoint catalog_loop (path : string) (python_files : list string)
    (all_entities : catalog) : result catalog :=
  match python_files with
  | [] => Ok all_entities
  | file_path :: rest =>
      all_entities' <- process_file path file_path all_entities ;;
      catalog_loop path rest all_entities'
  end.

Definition python_files_of (path : string) : list string :=
  if is_file path then
    if suffix path =? ".py" then [path] else []
  else rglob_py path.

(** [extract_entities_from_directory(path)]; the [verbose] printing is left
    out, it does not touch [all_entities]. *)
Definition extract_entities_from_directory (path : string) : result catalog :=
  catalog_loop path (python_files_of path) [].

End Extraction.

End Extractor.

(** ** Analyzer.py: the [ERPNextAnalyzer] node visitor *)

Module Analyzer.

(** One entry of [stats["business_rules"]]. *)
Record business_rule : Type := mk_business_rule {
  source_method : string;
  calls : string;
  line_number : Z
}.

(** The visitor object: [self.stats] and [self.current_function].  The
    [dependencies] set is kept as a duplicate-free list; a Python set has
    no order of its own, so only membership and the absence of repetition
    are meant, never the position of an element. *)
Record ERPNextAnalyzer : Type := mk_analyzer {
  methods_found : nat;
  business_rules : list business_rule;
  dependencies : list string;
  current_function : option string
}.

(** [__init__] *)
Definition init : ERPNextAnalyzer :=
  {| methods_found := 0;
     business_rules := [];
     dependencies := [];
     current_function := None |}.

Definition set_add (s : list string) (x : string) : list string :=
  if existsb (String.eqb x) s then s else s ++ [x].

Definition incr_methods_found (self : ERPNextAnalyzer) : ERPNextAnalyzer :=
  {| methods_found := methods_found self + 1;
     business_rules := business_rules self;
     dependencies := dependencies self;
     current_function := current_function self |}.

Definition set_current_function (self : ERPNextAnalyzer) (f : option string)
  : ERPNextAnalyzer :=
  {| methods_found := methods_found self;
     business_rules := business_rules self;
     dependencies := dependencies self;
     current_function := f |}.

Definition append_business_rule (self : ERPNextAnalyzer) (r : business_rule)
  : ERPNextAnalyzer :=
  {| methods_found := methods_found self;
     business_rules := business_rules self ++ [r];
     dependencies := dependencies self;
     current_function := current_function self |}.

Definition add_dependency (self : ERPNextAnalyzer) (m : string)
  : ERPNextAnalyzer :=
  {| methods_found := methods_found self;
     business_rules := business_rules self;
     dependencies := set_add (dependencies self) m;
     current_function := current_function self |}.

(** [analyze_on_submit(self, node)], on [node.body].  Among expression
    nodes only [Attribute] has a field called [attr], so
    [hasattr(item.value.func, 'attr')] holds exactly for an [Attribute]. *)
Definition analyze_on_submit (body : list stmt) (self : ERPNextAnalyzer)
  : ERPNextAnalyzer :=
  fold_left (fun self item =>
               match item with
               | Expr (Call (Attribute _ attr) _ _) lineno =>
                   let called_method := attr in
                   append_business_rule self
                     {| source_method := "on_submit";
                        calls := called_method;
                        line_number := lineno |}
               | _ => self
               end) body self.

(** [NodeVisitor.visit]: a [FunctionDef] goes to [visit_FunctionDef], an
    [ImportFrom] to [visit_ImportFrom], every other class to
    [generic_visit], which visits the child nodes field by field.  No
    [visit_] method exists for an expression class and expressions hold no
    statements, so visiting an expression field leaves [self] as it is and
    is not written out. *)
Fixpoint visit (node : stmt) (self : ERPNextAnalyzer) : ERPNextAnalyzer :=
  match node with
  | FunctionDef name _ body _ _ _ =>
      let self := incr_methods_found self in
      let self := set_current_function self (Some name) in
      let self := if name =? "on_submit"
                  then analyze_on_submit body self else self in
      let self := fold_left (fun s n => visit n s) body self in
      set_current_function self None
  | ImportFrom module _ _ _ =>
      match module with
      | Some m => if truthy m then add_dependency self m else self
      | None => self
      end
  | AsyncFunctionDef _ _ body _ _ _ =>
      fold_left (fun s n => visit n s) body self
  | ClassDef _ _ body _ _ _ =>
      fold_left (fun s n => visit n s) body self
  | If _ body orelse _ | While _ body orelse _ | For _ _ body orelse _ =>
      let self := fold_left (fun s n => visit n s) body self in
      fold_left (fun s n => visit n s) orelse self
  | With _ body _ =>
      fold_left (fun s n => visit n s) body self
  | Try body handlers orelse finalbody _ =>
      let self := fold_left (fun s n => visit n s) body self in
      let self := fold_left (fun s h => visit_handler h s) handlers self in
      let self := fold_left (fun s n => visit n s) orelse self in
      fold_left (fun s n => visit n s) finalbody self
  | Return _ _ | Assign _ _ _ | Expr _ _ | Import _ _ | Pass _ => self
  end
with visit_handler (h : excepthandler) (self : ERPNextAnalyzer)
  : ERPNextAnalyzer :=
  match h with
  | ExceptHandler _ _ body _ => fold_left (fun s n => visit n s) body self
  end.

(** [analyzer.visit(tree)] on the [Module]: [generic_visit] over its body. *)
Definition visit_module (tree_body : list stmt) (self : ERPNextAnalyzer)
  : ERPNextAnalyzer :=
  fold_left (fun s n => visit n s) tree_body self.

Section AnalyzeFile.

(** [open(filename).read()] and [ast.parse]. *)
Variable read_file : string -> result string.
Variable parse : string -> result (list stmt).

Definition analyze_file (filename : string) : result ERPNextAnalyzer :=
  source <- read_file filename ;;
  tree_body <- parse source ;;
  Ok (visit_module tree_body init).

End AnalyzeFile.

End Analyzer.

(** ** Analyzer.py: documents, index and retrieval *)

Module RAG.

Import Extractor.

(** A value as [json.loads] returns it. *)
Inductive json : Type :=
| JNull
| JBool (b : bool)
| JInt (n : Z)
| JStr (s : string)
| JList (l : list json)
| JDict (d : list (string * json)).

(** [v[k]] with a string key. *)
Definition getitem (v : json) (k : string) : result json :=
  match v with
  | JDict d =>
      match dict_get d k with
      | Some x => Ok x
      | None => Raise (KeyError k)
      end
  | JList _ =>
      Raise (TypeError "list indices must be integers or slices, not str")
  | JStr _ => Raise (TypeError "string indices must be integers")
  | _ => Raise (TypeError "object is not subscriptable")
  end.

(** [for x in v]: a list gives its elements, a dict its keys, a string its
    characters. *)
Definition iterate (v : json) : result (list json) :=
  match v with
  | JList l => Ok l
  | JDict d => Ok (map (fun kv => JStr (fst kv)) d)
  | JStr s => Ok (map (fun c => JStr (String c "")) (list_ascii_of_string s))
  | _ => Raise (TypeError "object is not iterable")
  end.

(** [data.items()] *)
Definition items (v : json) : result (list (string * json)) :=
  match v with
  | JDict d => Ok d
  | _ => Raise (AttributeError "object has no attribute 'items'")
  end.

(** [v == s] for a string literal [s]. *)
Definition eq_str (v : json) (s : string) : bool :=
  match v with
  | JStr s' => s' =? s
  | _ => false
  end.

(** *** What [Extractor.main] writes with [json.dump] and [json.loads]
    reads back from the same file *)

Definition json_of_strings (l : list string) : json := JList (map JStr l).

Definition json_of_function (f : function_entity) : json :=
  JDict [("type", JStr (fn_type f));
         ("kind", JStr (fn_kind f));
         ("name", JStr (fn_name f));
         ("line", JInt (fn_line f));
         ("end_line", JInt (fn_end_line f));
         ("params", json_of_strings (fn_params f));
         ("decorators", json_of_strings (fn_decorators f));
         ("docstring", JStr (fn_docstring f));
         ("is_async", JBool (fn_is_async f));
         ("parent_class", match fn_parent_class f with
                          | Some c => JStr c
                          | None => JNull
                          end)].

Definition json_of_class (c : class_entity) : json :=
  JDict [("type", JStr (cls_type c));
         ("name", JStr (cls_name c));
         ("line", JInt (cls_line c));
         ("end_line", JInt (cls_end_line c));
         ("bases", json_of_strings (cls_bases c));
         ("decorators", json_of_strings (cls_decorators c));
         ("docstring", JStr (cls_docstring c));
         ("methods", JList (map json_of_function (cls_methods c)));
         ("method_count", JInt (Z.of_nat (cls_method_count c)))].

Definition json_of_entity (e : entity) : json :=
  match e with
  | EClass c => json_of_class c
  | EFunction f => json_of_function f
  end.

Definition json_of_catalog (c : catalog) : json :=
  JDict (map (fun kv => (fst kv, JList (map json_of_entity (snd kv)))) c).

(** *** Documents *)

(** The [metadata] dictionary of a document; [md_class] is the [class] key,
    present for methods only. *)
Record doc_metadata : Type := mk_doc_metadata {
  md_file : string;
  md_class : option json;
  md_name : json;
  md_type : string
}.

Record document : Type := mk_document {
  text : json;
  metadata : doc_metadata
}.

(** The [documents.append] of the inner loop [for m in ent["methods"]]. *)
Definition append_method (file : string) (ent : json)
    (documents : list document) (m : json) : result (list document) :=
  m_text <- getitem m "source_code" ;;
  class_name <- getitem ent "name" ;;
  m_name <- getitem m "name" ;;
  Ok (documents ++
      [{| text := m_text;
          metadata := {| md_file := file; md_class := Some class_name;
                         md_name := m_name; md_type := "method" |} |}]).

(** The body of [for ent in entities]. *)
Definition append_entity (file : string) (documents : list document)
    (ent : json) : result (list document) :=
  ent_type <- getitem ent "type" ;;
  if eq_str ent_type "class" then
    ent_text <- getitem ent "source_code" ;;
    ent_name <- getitem ent "name" ;;
    let documents :=
      documents ++
      [{| text := ent_text;
          metadata := {| md_file := file; md_class := None;
                         md_name := ent_name; md_type := "class" |} |}] in
    methods <- getitem ent "methods" ;;
    ms <- iterate methods ;;
    for_each (append_method file ent) ms documents
  else
    ent_text <- getitem ent "source_code" ;;
    ent_name <- getitem ent "name" ;;
    Ok (documents ++
        [{| text := ent_text;
            metadata := {| md_file := file; md_class := None;
                           md_name := ent_name; md_type := "function" |} |}]).

(** The body of [for file, entities in data.items()]. *)
Definition append_file (documents : list document)
    (item : string * json) : result (list document) :=
  let '(file, entities) := item in
  ents <- iterate entities ;;
  for_each (append_entity file) ents documents.

(** [build_documents()], on the value loaded from [ENTITIES_FILE]. *)
Definition build_documents (data : json) : result (list document) :=
  file_items <- items data ;;
  for_each append_file file_items [].

(** *** The catalog the flattener expects

    [build_documents] reads a [source_code] key from every entity and every
    method.  The records below are entities that carry it. *)

Record sourced_method : Type := mk_sourced_method {
  sm_name : string;
  sm_source_code : string
}.

Inductive sourced_entity : Type :=
| SClass (name : string) (source_code : string) (methods : list sourced_method)
| SFunction (name : string) (source_code : string).

Definition json_of_sourced_method (m : sourced_method) : json :=
  JDict [("type", JStr "function");
         ("name", JStr (sm_name m));
         ("source_code", JStr (sm_source_code m))].

Definition json_of_sourced_entity (e : sourced_entity) : json :=
  match e with
  | SClass name source_code methods =>
      JDict [("type", JStr "class");
             ("name", JStr name);
             ("source_code", JStr source_code);
             ("methods", JList (map json_of_sourced_method methods))]
  | SFunction name source_code =>
      JDict [("type", JStr "function");
             ("name", JStr name);
             ("source_code", JStr source_code)]
  end.

Definition json_of_sourced_catalog (c : dict (list sourced_entity)) : json :=
  JDict (map (fun kv =>
                (fst kv, JList (map json_of_sourced_entity (snd kv)))) c).

(** The flattening in the specification's words: per file in catalog order,
    per entity in source order, a class document followed by its method
    documents in method order, or one function document. *)
Definition flatten_entity (file : string) (e : sourced_entity)
  : list document :=
  match e with
  | SClass name source_code methods =>
      mk_document (JStr source_code)
        (mk_doc_metadata file None (JStr name) "class")
      :: map (fun m =>
                mk_document (JStr (sm_source_code m))
                  (mk_doc_metadata file (Some (JStr name))
                     (JStr (sm_name m)) "method")) methods
  | SFunction name source_code =>
      [mk_document (JStr source_code)
         (mk_doc_metadata file None (JStr name) "function")]
  end.

Definition flatten (c : dict (list sourced_entity)) : list document :=
  flat_map (fun kv => flat_map (flatten_entity (fst kv)) (snd kv)) c.

(** *** Index build and retrieval *)

Section Index.

(** One component of an embedding. *)
Variable scalar : Type.
Definition vector : Type := list scalar.

(** [model.encode(texts)]: one row per text. *)
Variable encode : list json -> list vector.
(** [.astype("float32")] on one component. *)
Variable to_float32 : scalar -> scalar.

(** [faiss.IndexFlatL2(d)] after [index.add(rows)]. *)
Record flat_index : Type := mk_flat_index {
  dimension : nat;
  vectors : list vector
}.

(** [index.search(queries, k)]: one row of labels per query row; faiss
    fills a row with [-1] where it has fewer than [k] vectors. *)
Variable search : flat_index -> list vector -> nat -> list (list Z).

(** The two artifacts [INDEX_FILE] and [META_FILE]. *)
Record store : Type := mk_store {
  index_file : option flat_index;
  meta_file : option (list document)
}.

Definition astype_float32 (rows : list vector) : list vector :=
  map (map to_float32) rows.

(** [embeddings.shape[1]]: the row length; an array without rows has no
    second dimension. *)
Definition shape1 (rows : list vector) : result nat :=
  match rows with
  | row :: _ => Ok (length row)
  | [] => Raise (IndexError "tuple index out of range")
  end.

(** [build_index()] from the documents [build_documents()] returned: the
    files it leaves behind. *)
Definition build_index (docs : list document) (files : store) : result store :=
  let texts := map text docs in
  let embeddings := encode texts in
  let embeddings := astype_float32 embeddings in
  d <- shape1 embeddings ;;
  let index := {| dimension := d; vectors := embeddings |} in
  let files := {| index_file := Some index; meta_file := meta_file files |} in
  let files := {| index_file := index_file files; meta_file := Some docs |} in
  Ok files.

(** [retrieve(query, top_k)] *)
Definition retrieve (files : store) (query : string) (top_k : nat)
  : result (list document) :=
  index <- match index_file files with
           | Some index => Ok index
           | None => Raise (RuntimeError "could not open index file")
           end ;;
  metadata <- match meta_file files with
              | Some docs => Ok docs
              | None => Raise (OSError "No such file or directory")
              end ;;
  let q_emb := astype_float32 (encode [JStr query]) in
  let indices := search index q_emb top_k in
  row <- list_getitem indices 0 ;;
  for_each (fun results idx =>
              d <- list_getitem metadata idx ;;
              Ok (results ++ [d])) row [].

End Index.

End RAG.

(** ** Analyzer.py: the index build as the program runs it *)

Module Pipeline.

Import RAG.

Section Run.

Variable scalar : Type.
Variable encode : list json -> list (vector scalar).
Variable to_float32 : scalar -> scalar.
Variable search :
  flat_index scalar -> list (vector scalar) -> nat -> list (list Z).

(** [build_index()] as written: it starts with [docs = build_documents()],
    here on the value [data] loaded from [ENTITIES_FILE]. *)
Definition build_index_from (data : json) (files : store scalar)
  : result (store scalar) :=
  docs <- build_documents data ;;
  build_index scalar encode to_float32 docs files.

(** The start of the [__main__] block:
    [if not INDEX_FILE.exists(): build_index()]. *)
Definition ensure_index (data : json) (files : store scalar)
  : result (store scalar) :=
  match index_file scalar files with
  | Some _ => Ok files
  | None => build_index_from data files
  end.

End Run.

End Pipeline.

(** ** Extractor.py: candidate discovery with its failures *)

Module Discovery.

Import Extractor.

Section Run.

Variable cleandoc : string -> string.
Variable read_text : string -> result string.
Variable parse : string -> result (list stmt).
(** [Path.is_file()] answers [False] where nothing is found and raises the
    other [OSError]s (permission denied, name too long);
    [list(Path.rglob("*.py"))] can raise while it walks the tree. *)
Variable is_file : string -> result bool.
Variables suffix parent : string -> string.
Variable rglob_py : string -> result (list string).
Variable relative_to : string -> string -> result string.

(** Lines 29-33, the candidate list, computed before the [try]. *)
Definition python_files (path : string) : result (list string) :=
  file <- is_file path ;;
  if file then Ok (if suffix path =? ".py" then [path] else [])
  else rglob_py path.

(** [extract_entities_from_directory(path)] with the failures of the
    discovery: they happen outside the [try] and end the run. *)
Definition extract_entities_from_directory (path : string)
  : result catalog :=
  python_files <- python_files path ;;
  catalog_loop cleandoc read_text parse parent relative_to path
    python_files [].

End Run.

End Discovery.

(** * Specification-side definitions and sample inputs *)

Module Spec.

Import Extractor Analyzer RAG.

(** The decorator [a.b.c] and the decorator [a.b.c(x=1)]. *)
Definition a_b_c : expr := Attribute (Attribute (Name "a") "b") "c".
Definition a_b_c_call : expr := Call a_b_c [] [(Some "x", Constant (CInt 1))].

(** A body that opens with the docstring [doc]. *)
Definition documented_body (doc : string) : list stmt :=
  [Expr (Constant (CStr doc)) 2; Pass 3].

Definition self_args : arguments := mk_arguments [] ["self"] None [] None [].
Definition no_args : arguments := mk_arguments [] [] None [] None [].

Definition is_function_def (node : stmt) : bool :=
  match node with
  | FunctionDef _ _ _ _ _ _ | AsyncFunctionDef _ _ _ _ _ _ => true
  | _ => false
  end.

Definition is_definition (node : stmt) : bool :=
  match node with
  | ClassDef _ _ _ _ _ _ => true
  | _ => is_function_def node
  end.

(** The number of entity records in a list of top-level entities: one per
    entity and one per method of a class. *)
Definition record_count (entities : list entity) : nat :=
  list_sum (map (fun e => match e with
                          | EClass c => 1 + length (cls_methods c)
                          | EFunction _ => 1
                          end) entities).

(** The records the specification promises for a module body: one per
    top-level class or function, and one per function definition found
    directly in the body of a top-level class. *)
Definition expected_records (tree_body : list stmt) : nat :=
  list_sum (map (fun node =>
                   match node with
                   | ClassDef _ _ body _ _ _ =>
                       1 + length (filter is_function_def body)
                   | FunctionDef _ _ _ _ _ _
                   | AsyncFunctionDef _ _ _ _ _ _ => 1
                   | _ => 0
                   end) tree_body).

(** The names recorded, methods after their class. *)
Definition record_names (entities : list entity) : list string :=
  flat_map (fun e => match e with
                     | EClass c => cls_name c :: map fn_name (cls_methods c)
                     | EFunction f => [fn_name f]
                     end) entities.

(** A module with definitions nested at every place the extractor does not
    look: a function in a function, a class in a class, a function in a
    method, a function under an [if]. *)
Definition nested_module : list stmt :=
  [ FunctionDef "outer" no_args
      [FunctionDef "inner" no_args [Pass 3] [] 2 3] [] 1 3;
    ClassDef "Invoice" []
      [ ClassDef "Meta" [] [FunctionDef "hidden" self_args [Pass 7] [] 6 7]
          [] 5 7;
        FunctionDef "validate" self_args
          [FunctionDef "helper" no_args [Pass 10] [] 9 10] [] 8 10 ]
      [] 4 10;
    If (Name "DEBUG") [FunctionDef "trace" no_args [Pass 13] [] 12 13] [] 11 ].

(** What one statement of a class body adds to [methods]. *)
Definition method_of (cleandoc : string -> string) (source_code : string)
    (class_name : string) (item : stmt) : list function_entity :=
  match item with
  | FunctionDef n a b d l e =>
      [extract_function cleandoc false n a b d l e source_code
         (Some class_name)]
  | AsyncFunctionDef n a b d l e =>
      [extract_function cleandoc true n a b d l e source_code (Some class_name)]
  | _ => []
  end.

(** What one statement of the module body adds to [entities]. *)
Definition entity_of (cleandoc : string -> string) (source_code : string)
    (node : stmt) : list entity :=
  match node with
  | ClassDef n bs b d l e =>
      [EClass (extract_class cleandoc n bs b d l e source_code)]
  | FunctionDef n a b d l e =>
      [EFunction (extract_function cleandoc false n a b d l e source_code None)]
  | AsyncFunctionDef n a b d l e =>
      [EFunction (extract_function cleandoc true n a b d l e source_code None)]
  | _ => []
  end.

(** The catalog entry of one well-formed file: none when the file has no
    top-level entity. *)
Definition catalog_entry (relative_path : string) (entities : list entity)
  : catalog :=
  match entities with
  | [] => []
  | _ :: _ => [(relative_path, entities)]
  end.

(** A directory [proj] with two well-formed files and a malformed one
    between them. *)
Definition sample_read_text (file_path : string) : result string :=
  if file_path =? "proj/a.py" then Ok "def f(): pass"
  else if file_path =? "proj/bad.py" then Ok "def ("
  else if file_path =? "proj/c.py" then Ok "class C: pass"
  else Raise (OSError "No such file or directory").

Definition sample_parse (source_code : string) : result (list stmt) :=
  if source_code =? "def f(): pass" then
    Ok [FunctionDef "f" no_args [Pass 1] [] 1 1]
  else if source_code =? "class C: pass" then
    Ok [ClassDef "C" [] [Pass 1] [] 1 1]
  else Raise (SyntaxError "invalid syntax").

Definition sample_rglob (path : string) : list string :=
  ["proj/a.py"; "proj/bad.py"; "proj/c.py"].

Definition sample_relative_to (file_path base : string) : result string :=
  Ok file_path.

Definition sample_directory (path : string) : result catalog :=
  extract_entities_from_directory (fun s => s) sample_read_text sample_parse
    (fun _ => false) (fun _ => "") (fun _ => "") sample_rglob
    sample_relative_to path.

(** *** Statements of a tree *)

Definition handler_body (h : excepthandler) : list stmt :=
  match h with
  | ExceptHandler _ _ body _ => body
  end.

(** The statements directly below a statement, in source order. *)
Definition children (node : stmt) : list stmt :=
  match node with
  | FunctionDef _ _ body _ _ _ | AsyncFunctionDef _ _ body _ _ _
  | ClassDef _ _ body _ _ _ | With _ body _ => body
  | If _ body orelse _ | While _ body orelse _ | For _ _ body orelse _ =>
      body ++ orelse
  | Try body handlers orelse finalbody _ =>
      body ++ flat_map handler_body handlers ++ orelse ++ finalbody
  | _ => []
  end.

(** A statement and every statement below it at any depth, in source
    order. *)
Fixpoint descendants (node : stmt) : list stmt :=
  node ::
  match node with
  | FunctionDef _ _ body _ _ _ | AsyncFunctionDef _ _ body _ _ _
  | ClassDef _ _ body _ _ _ | With _ body _ => flat_map descendants body
  | If _ body orelse _ | While _ body orelse _ | For _ _ body orelse _ =>
      flat_map descendants body ++ flat_map descendants orelse
  | Try body handlers orelse finalbody _ =>
      flat_map descendants body
      ++ flat_map (fun h => match h with
                            | ExceptHandler _ _ hbody _ =>
                                flat_map descendants hbody
                            end) handlers
      ++ flat_map descendants orelse ++ flat_map descendants finalbody
  | _ => []
  end.

(** A synchronous function definition ([def], not [async def]). *)
Definition is_sync_def (node : stmt) : bool :=
  match node with
  | FunctionDef _ _ _ _ _ _ => true
  | _ => false
  end.

(** An immediate statement that is an expression statement whose value is
    a call with an attribute access as callee: the attribute and the line
    of the statement. *)
Definition direct_attribute_call (item : stmt) : option (string * Z) :=
  match item with
  | Expr (Call (Attribute _ attr) _ _) _ => Some (attr, lineno_of item)
  | _ => None
  end.

Definition is_direct_attribute_call (item : stmt) : bool :=
  match direct_attribute_call item with
  | Some _ => true
  | None => false
  end.

(** The direct attribute calls of a body, in source order. *)
Definition direct_calls (body : list stmt) : list (string * Z) :=
  flat_map (fun item => match direct_attribute_call item with
                        | Some call => [call]
                        | None => []
                        end) body.

(** The records one hook body stands for: one per direct attribute call. *)
Definition hook_rules (body : list stmt) : list business_rule :=
  map (fun call => mk_business_rule "on_submit" (fst call) (snd call))
    (direct_calls body).

(** The records a statement stands for by itself: those of its body when it
    is a synchronous definition of the hook, none otherwise. *)
Definition hook_rules_of (node : stmt) : list business_rule :=
  match node with
  | FunctionDef name _ body _ _ _ =>
      if name =? "on_submit" then hook_rules body else []
  | _ => []
  end.

(** [self.<name>()] on line [lineno]. *)
Definition self_call (name : string) (lineno : Z) : stmt :=
  Expr (Call (Attribute (Name "self") name) [] []) lineno.

(** A hook body with three direct calls, a call under an [if], an assigned
    call and a call of a plain name. *)
Definition hook_body : list stmt :=
  [ self_call "x" 3;
    If (Name "cond") [self_call "nested" 5] [] 4;
    self_call "y" 6;
    Assign [Name "r"] (Call (Attribute (Name "self") "assigned") [] []) 7;
    Expr (Call (Name "plain") [] []) 8;
    self_call "z" 9 ].

Definition three_calls : list stmt :=
  [self_call "x" 3; self_call "y" 4; self_call "z" 5].

(** [class Invoice] with [on_submit] calling [self.update_stock()] and
    [self.make_gl_entries()]. *)
Definition invoice_module (is_async : bool) : list stmt :=
  let body := [self_call "update_stock" 3; self_call "make_gl_entries" 4] in
  [ ClassDef "Invoice" []
      [ if is_async
        then AsyncFunctionDef "on_submit" self_args body [] 2 4
        else FunctionDef "on_submit" self_args body [] 2 4 ]
      [] 1 4 ].

(** The two counters a visit moves: what they were plus what the
    descendants of the visited statement stand for. *)
Definition visit_effect (node : stmt) : Prop :=
  forall self,
    methods_found (visit node self)
    = methods_found self + length (filter is_sync_def (descendants node)) /\
    business_rules (visit node self)
    = business_rules self ++ flat_map hook_rules_of (descendants node).

(** *** A small index: integer components, a text embedded as its length *)

Definition sample_embed (t : json) : vector Z :=
  match t with
  | JStr s => [Z.of_nat (String.length s); 1%Z]
  | _ => [0%Z; 0%Z]
  end.

Definition sample_search (index : flat_index Z) (queries : list (vector Z))
    (top_k : nat) : list (list Z) :=
  [[1%Z; 0%Z]].

Definition sample_docs : list document :=
  [ mk_document (JStr "def f(): pass")
      (mk_doc_metadata "proj/a.py" None (JStr "f") "function");
    mk_document (JStr "class C: pass")
      (mk_doc_metadata "proj/c.py" None (JStr "C") "class") ].

Definition no_files : store Z := mk_store Z None None.

(** *** Further specification-side definitions *)

(** The attribute chain [root.a1.a2...an]. *)
Definition chain (root : expr) (attrs : list string) : expr :=
  fold_left Attribute attrs root.

(** [e(...)(...)...]: [e] called once per element of [applications], each
    with its own positional and keyword arguments. *)
Definition called (e : expr)
    (applications : list (list expr * list (option string * expr))) : expr :=
  fold_left (fun f a => Call f (fst a) (snd a)) applications e.

Definition is_name_or_attribute (e : expr) : bool :=
  match e with
  | Name _ | Attribute _ _ => true
  | _ => false
  end.

(** Type, name, first line, last line and asynchrony of a definition
    statement, as an entity should carry them. *)
Definition definition_header (node : stmt)
  : list (string * string * Z * Z * option bool) :=
  match node with
  | ClassDef n _ _ _ l e => [("class", n, l, e, None)]
  | FunctionDef n _ _ _ l e => [("function", n, l, e, Some false)]
  | AsyncFunctionDef n _ _ _ l e => [("function", n, l, e, Some true)]
  | _ => []
  end.

Definition function_header (f : function_entity)
  : string * string * Z * Z * option bool :=
  (fn_type f, fn_name f, fn_line f, fn_end_line f, Some (fn_is_async f)).

Definition entity_header (e : entity)
  : string * string * Z * Z * option bool :=
  match e with
  | EClass c => (cls_type c, cls_name c, cls_line c, cls_end_line c, None)
  | EFunction f => function_header f
  end.

(** A catalog as the builder leaves it: no path twice, no path without
    entities. *)
Definition catalog_ok (c : catalog) : Prop :=
  NoDup (map fst c) /\ Forall (fun kv => snd kv <> []) c.

(** A directory whose second file cannot be read because the run is
    interrupted. *)
Definition interrupted_read_text (file_path : string) : result string :=
  if file_path =? "proj/bad.py" then Raise KeyboardInterrupt
  else sample_read_text file_path.

(** The module an [ImportFrom] statement names, when it names one. *)
Definition imported_module (node : stmt) : list string :=
  match node with
  | ImportFrom (Some m) _ _ _ => if truthy m then [m] else []
  | _ => []
  end.

(** The modules named by the [from ... import] statements of a tree, at any
    depth, in source order. *)
Definition imported_modules (tree_body : list stmt) : list string :=
  flat_map imported_module (flat_map descendants tree_body).

(** A statement that is not a synchronous definition of the hook. *)
Definition not_hook (node : stmt) : Prop :=
  match node with
  | FunctionDef name _ _ _ _ _ => name <> "on_submit"
  | _ => True
  end.

(** A module with imports at two depths, one of them relative and one
    repeated, and no hook. *)
Definition imports_module : list stmt :=
  [ Import ["json"] 1;
    ImportFrom (Some "frappe") ["_"] 0 2;
    ImportFrom None ["utils"] 1 3;
    FunctionDef "validate" self_args
      [ImportFrom (Some "erpnext.stock") ["get_bin"] 0 5;
       ImportFrom (Some "frappe") ["throw"] 0 6;
       self_call "check" 7] [] 4 7 ].

(** Type and [class] key of a document go together. *)
Definition well_tagged (d : document) : Prop :=
  (md_type (metadata d) = "class" /\ md_class (metadata d) = None) \/
  (md_type (metadata d) = "function" /\ md_class (metadata d) = None) \/
  (md_type (metadata d) = "method" /\ md_class (metadata d) <> None).

(** The number of documents a catalog with source text stands for. *)
Definition document_count (c : dict (list sourced_entity)) : nat :=
  list_sum (map (fun kv =>
                   list_sum (map (fun e =>
                                    match e with
                                    | SClass _ _ methods => 1 + length methods
                                    | SFunction _ _ => 1
                                    end) (snd kv))) c).

(** A label within reach of [l[idx]] on a list of length [n]. *)
Definition reachable (n : nat) (idx : Z) : Prop :=
  (- Z.of_nat n <= idx < Z.of_nat n)%Z.

(** A search that finds one neighbour and fills the row with [-1]. *)
Definition filler_search (index : flat_index Z) (queries : list (vector Z))
    (top_k : nat) : list (list Z) :=
  [[0%Z; (-1)%Z]].

(** A search that returns a label past the end. *)
Definition stray_search (index : flat_index Z) (queries : list (vector Z))
    (top_k : nat) : list (list Z) :=
  [[0%Z; 2%Z]].

Definition sample_sourced_catalog : dict (list sourced_entity) :=
  [("proj/a.py", [SFunction "f" "def f(): pass"]);
   ("proj/c.py",
    [SClass "C" "class C: ..."
       [mk_sourced_method "on_submit" "def on_submit(self): ..."]])].

(** The bookkeeping a visit does besides counting: the dependencies grow by
    the modules imported below the statement, and [current_function] ends
    as [None] once a synchronous definition was visited. *)
Definition visit_bookkeeping (node : stmt) : Prop :=
  forall self,
    dependencies (visit node self)
    = fold_left set_add (flat_map imported_module (descendants node))
        (dependencies self) /\
    current_function (visit node self)
    = if existsb is_sync_def (descendants node)
      then None else current_function self.

(** *** The records of a module, and the module cut below the depth the
    extractor reads *)

(** The headers of all records of a list of entities: each top-level
    entity, a class followed by its methods. *)
Definition record_headers (entities : list entity)
  : list (string * string * Z * Z * option bool) :=
  flat_map (fun e =>
              entity_header e ::
              match e with
              | EClass c => map function_header (cls_methods c)
              | EFunction _ => []
              end) entities.

(** The headers of the definitions the extractor is to record, read off the
    tree: each top-level class or function definition, a class followed by
    the function definitions that are statements of its own body. *)
Definition definition_headers (tree_body : list stmt)
  : list (string * string * Z * Z * option bool) :=
  flat_map (fun node =>
              definition_header node ++
              match node with
              | ClassDef _ _ body _ _ _ =>
                  flat_map definition_header (filter is_function_def body)
              | _ => []
              end) tree_body.

(** The docstring statement of a body, when the body opens with one. *)
Definition docstring_statement (body : list stmt) : list stmt :=
  match body with
  | Expr (Constant (CStr doc)) l :: _ => [Expr (Constant (CStr doc)) l]
  | _ => []
  end.

(** A function definition with everything but its docstring statement
    removed from its body. *)
Definition prune_function (node : stmt) : stmt :=
  match node with
  | FunctionDef n a b d l e => FunctionDef n a (docstring_statement b) d l e
  | AsyncFunctionDef n a b d l e =>
      AsyncFunctionDef n a (docstring_statement b) d l e
  | _ => node
  end.

(** A top-level definition with everything below the depth of extraction
    removed: a class keeps its docstring statement and its own function
    definitions, pruned; a function keeps its docstring statement. *)
Definition prune_definition (node : stmt) : stmt :=
  match node with
  | ClassDef n bs b d l e =>
      ClassDef n bs
        (docstring_statement b ++ map prune_function (filter is_function_def b))
        d l e
  | _ => prune_function node
  end.

(** A module body reduced to its pruned top-level definitions. *)
Definition prune_module (tree_body : list stmt) : list stmt :=
  map prune_definition (filter is_definition tree_body).

(** A discovery that cannot look at the path. *)
Definition denied_is_file (path : string) : result bool :=
  Raise (OSError "Permission denied").

End Spec.
Import Spec.

(** * Properties *)

Import Extractor.

(** ** Name resolution *)

(** The loop of [get_attribute_name] leaves, once reversed, the segments of
    the chain in source order in front of what [parts] held before. *)
Lemma attribute_loop_segments (e : expr) : forall parts,
  rev (match fst (attribute_loop e parts) with
       | Name id => snd (attribute_loop e parts) ++ [id]
       | _ => snd (attribute_loop e parts)
       end) = chain_segments e ++ rev parts.
Proof.
  induction e; intro parts; simpl;
    try reflexivity.
  - now rewrite rev_app_distr.
  - rewrite IHe, rev_app_distr. simpl. now rewrite <- app_assoc.
Qed.

Lemma get_attribute_name_segments (e : expr) :
  get_attribute_name e = String.concat "." (chain_segments e).
Proof.
  unfold get_attribute_name.
  pose proof (attribute_loop_segments e []) as H.
  destruct (attribute_loop e []) as [current parts]. simpl in H.
  rewrite app_nil_r in H. now rewrite H.
Qed.

(** C6.  Decorator resolution maps an identifier to itself, an attribute
    chain to its segments joined with dots in source order, a call to the
    resolution of its callee whatever the arguments, and every other shape
    to "unknown_decorator"; [a.b.c] and [a.b.c(x=1)] both resolve to
    "a.b.c". *)
Theorem decorator_resolution :
  (forall id, get_decorator_name (Name id) = id) /\
  (forall value attr,
     get_decorator_name (Attribute value attr)
     = String.concat "." (chain_segments value ++ [attr])) /\
  (forall func args keywords,
     get_decorator_name (Call func args keywords) = get_decorator_name func) /\
  (forall e, resolvable_shape e = false ->
     get_decorator_name e = "unknown_decorator") /\
  get_decorator_name a_b_c = "a.b.c" /\
  get_decorator_name a_b_c_call = get_decorator_name a_b_c.
Proof.
  repeat split.
  - intros value attr. simpl get_decorator_name.
    now rewrite get_attribute_name_segments.
  - intros e He. destruct e; simpl in *; congruence.
Qed.

Lemma decorator_resolution_witness :
  resolvable_shape (Subscript (Name "registry") (Constant (CStr "hook")))
  = false /\
  get_decorator_name (Subscript (Name "registry") (Constant (CStr "hook")))
     = "unknown_decorator".
Proof.
  split; [reflexivity |].
  apply (proj1 (proj2 (proj2 (proj2 decorator_resolution)))).
  reflexivity.
Defined.

(** A chain of depth five, and a chain rooted in a call: the root that is
    not a name adds no segment. *)
Example get_attribute_name_depth5 :
  get_attribute_name
    (Attribute (Attribute (Attribute (Attribute (Attribute (Name "a") "b") "c")
                             "d") "e") "f") = "a.b.c.d.e.f".
Proof. reflexivity. Qed.

Example get_decorator_name_call_root :
  get_decorator_name (Attribute (Call (Name "factory") [] []) "register")
  = "register".
Proof. reflexivity. Qed.

(** ** Function kinds and docstrings *)

Lemma slice_to_length (n : nat) : forall s,
  String.length (slice_to n s) = Nat.min n (String.length s).
Proof.
  induction n as [| n IH]; intros [| c s]; simpl; auto.
Qed.

Lemma slice_to_prefix (n : nat) : forall s,
  String.prefix (slice_to n s) s = true.
Proof.
  induction n as [| n IH]; intros [| c s]; simpl; auto.
  destruct (ascii_dec c c); [apply IH | congruence].
Qed.

Lemma slice_to_short (n : nat) : forall s,
  String.length s <= n -> slice_to n s = s.
Proof.
  induction n as [| n IH]; intros [| c s] H; simpl in *; auto; try lia.
  f_equal. apply IH. lia.
Qed.

Lemma slice_to_empty (n : nat) : slice_to n "" = "".
Proof. now destruct n. Qed.

Lemma truthy_false (s : string) : truthy s = false -> s = "".
Proof.
  unfold truthy. destruct (String.eqb_spec s ""); simpl; congruence.
Qed.

Lemma truthy_nonempty (s : string) : s <> "" -> truthy s = true.
Proof.
  unfold truthy. destruct (String.eqb_spec s ""); simpl; congruence.
Qed.

(** The stored docstring in terms of [ast.get_docstring]. *)
Lemma stored_docstring (cleandoc : string -> string) (body : list stmt) :
  (if truthy (docstring_or_empty cleandoc body)
   then slice_to 200 (docstring_or_empty cleandoc body) else "")
  = match get_docstring cleandoc body with
    | Some d => slice_to 200 d
    | None => ""
    end.
Proof.
  unfold docstring_or_empty.
  destruct (get_docstring cleandoc body) as [d |]; [| reflexivity].
  destruct (truthy d) eqn:E; simpl.
  - now rewrite E.
  - apply truthy_false in E. now subst.
Qed.

Section FunctionNode.

Variable cleandoc : string -> string.
Variables (is_async : bool) (name : string) (node_args : arguments)
  (body : list stmt) (decorator_list : list expr) (lineno end_lineno : Z)
  (source_code : string).

Let entity_in (parent_class : option string) : function_entity :=
  extract_function cleandoc is_async name node_args body decorator_list
    lineno end_lineno source_code parent_class.

(** C5.  The kind of a function-like node: inside a class (a class name is
    a non-empty identifier) the name "__init__" gives "constructor"; any
    other name beginning with an underscore gives "private_method"; any
    other name gives "method"; without an owning class the kind is
    "function".  "__init__" itself begins with an underscore and is a
    constructor all the same. *)
Theorem function_kind_priority :
  (forall c, c <> "" -> name = "__init__" ->
     fn_kind (entity_in (Some c)) = "constructor") /\
  (forall c, c <> "" -> name <> "__init__" -> String.prefix "_" name = true ->
     fn_kind (entity_in (Some c)) = "private_method") /\
  (forall c, c <> "" -> name <> "__init__" -> String.prefix "_" name = false ->
     fn_kind (entity_in (Some c)) = "method") /\
  fn_kind (entity_in None) = "function" /\
  String.prefix "_" "__init__" = true.
Proof.
  unfold entity_in, extract_function; simpl.
  repeat split.
  - intros c Hc Hn. rewrite (truthy_nonempty c Hc). subst name. reflexivity.
  - intros c Hc Hn Hp. rewrite (truthy_nonempty c Hc).
    destruct (String.eqb_spec name "__init__"); [contradiction |].
    now rewrite Hp.
  - intros c Hc Hn Hp. rewrite (truthy_nonempty c Hc).
    destruct (String.eqb_spec name "__init__"); [contradiction |].
    now rewrite Hp.
Qed.

End FunctionNode.

Lemma function_kind_priority_witness :
  let entity name :=
    extract_function (fun s => s) false name
      self_args [Pass 3] [] 2 3 ""
      (Some "Invoice") in
  fn_kind (entity "__init__") = "constructor" /\
  fn_kind (entity "_recompute") = "private_method" /\
  fn_kind (entity "validate") = "method".
Proof.
  intro entity. subst entity. split; [| split].
  - apply (proj1 (function_kind_priority (fun s => s) false "__init__"
                    self_args [Pass 3] [] 2 3 ""));
      [discriminate | reflexivity].
  - apply (proj1 (proj2 (function_kind_priority (fun s => s) false "_recompute"
                    self_args [Pass 3] [] 2 3 "")));
      [discriminate | discriminate | reflexivity].
  - apply (proj1 (proj2 (proj2 (function_kind_priority (fun s => s) false
                    "validate"
                    self_args [Pass 3] [] 2 3 ""))));
      [discriminate | discriminate | reflexivity].
Defined.

Section Docstrings.

Variable cleandoc : string -> string.

(** C8.  The [docstring] field of a function entity and of a class entity
    is the docstring of the node cut to its first 200 characters, and the
    empty string when the node has none: it is a prefix of the docstring of
    length [min 200 (length d)], so nothing is appended, and a docstring of
    at most 200 characters is stored whole. *)
Theorem docstring_truncated :
  forall (body : list stmt) is_async name node_args node_bases decorator_list
         lineno end_lineno source_code parent_class,
  let f_doc :=
    fn_docstring (extract_function cleandoc is_async name node_args body
                    decorator_list lineno end_lineno source_code parent_class)
  in
  let c_doc :=
    cls_docstring (extract_class cleandoc name node_bases body decorator_list
                     lineno end_lineno source_code) in
  (get_docstring cleandoc body = None -> f_doc = "" /\ c_doc = "") /\
  (forall d, get_docstring cleandoc body = Some d ->
     f_doc = slice_to 200 d /\ c_doc = slice_to 200 d /\
     String.length (slice_to 200 d) = Nat.min 200 (String.length d) /\
     String.prefix (slice_to 200 d) d = true /\
     (String.length d <= 200 -> slice_to 200 d = d)).
Proof.
  intros. subst f_doc c_doc. unfold extract_function, extract_class.
  cbn [fn_docstring cls_docstring]. rewrite !stored_docstring. split.
  - intros ->. now split.
  - intros d ->. repeat split.
    + apply slice_to_length.
    + apply slice_to_prefix.
    + apply slice_to_short.
Qed.

End Docstrings.

Lemma docstring_truncated_witness :
  get_docstring (fun s => s) (documented_body "Post the invoice.")
  = Some "Post the invoice." /\
  fn_docstring (extract_function (fun s => s) false "on_submit"
                  self_args
                  (documented_body "Post the invoice.") [] 1 3 ""
                  (Some "Invoice"))
  = "Post the invoice.".
Proof.
  split; [reflexivity |].
  pose proof (docstring_truncated (fun s => s)
                (documented_body "Post the invoice.") false "on_submit"
                self_args [] [] 1 3 ""
                (Some "Invoice")) as H.
  destruct H as [_ H].
  destruct (H "Post the invoice." eq_refl) as [Hf [_ [_ [_ Hs]]]].
  rewrite Hf. apply Hs. simpl. lia.
Defined.

Example long_docstring_cut :
  let doc := String.concat "" (repeat "abc" 100) in
  let stored :=
    cls_docstring (extract_class (fun s => s) "Invoice" []
                     (documented_body doc) [] 1 3 "") in
  String.length doc = 300 /\ String.length stored = 200 /\
  String.prefix stored doc = true.
Proof. vm_compute. repeat split. Qed.

Example absent_docstring_empty :
  fn_docstring (extract_function (fun s => s) true "fetch"
                  no_args [Pass 2] [] 1 2 "" None)
  = "".
Proof. reflexivity. Qed.

(** ** Depth of extraction *)

(** A loop that appends to its accumulator what [f] gives for each element
    collects [flat_map f]. *)
Lemma fold_left_collect {A B : Type} (g : list B -> A -> list B)
    (f : A -> list B) :
  (forall acc x, g acc x = acc ++ f x) ->
  forall l acc, fold_left g l acc = acc ++ flat_map f l.
Proof.
  intros Hg l. induction l as [| x l IH]; intro acc; simpl.
  - now rewrite app_nil_r.
  - now rewrite Hg, IH, <- app_assoc.
Qed.

Lemma flat_map_filter {A B : Type} (p : A -> bool) (f : A -> list B) :
  (forall x, p x = false -> f x = []) ->
  forall l, flat_map f (filter p l) = flat_map f l.
Proof.
  intros Hp l. induction l as [| x l IH]; simpl; [reflexivity |].
  destruct (p x) eqn:E; simpl.
  - now rewrite IH.
  - now rewrite (Hp x E), IH.
Qed.

Section Depth.

Variable cleandoc : string -> string.
Variable source_code : string.

Let method_of := method_of cleandoc source_code.
Let entity_of := entity_of cleandoc source_code.

Lemma collect_methods_flat_map (class_name : string) (class_body : list stmt) :
  collect_methods cleandoc class_name source_code class_body
  = flat_map (method_of class_name) class_body.
Proof.
  unfold collect_methods.
  rewrite (fold_left_collect _ (method_of class_name)); [reflexivity |].
  intros acc [] ; simpl; now rewrite ?app_nil_r.
Qed.

Lemma extract_entities_flat_map (tree_body : list stmt) :
  extract_entities cleandoc tree_body source_code
  = flat_map entity_of tree_body.
Proof.
  unfold extract_entities.
  rewrite (fold_left_collect _ entity_of); [reflexivity |].
  intros acc [] ; simpl; now rewrite ?app_nil_r.
Qed.

Lemma method_count_direct (class_name : string) (class_body : list stmt) :
  length (flat_map (method_of class_name) class_body)
  = length (filter is_function_def class_body).
Proof.
  induction class_body as [| item rest IH]; simpl; [reflexivity |].
  rewrite length_app, IH. destruct item; reflexivity.
Qed.

Lemma method_headers_direct (class_name : string) (class_body : list stmt) :
  map function_header (flat_map (method_of class_name) class_body)
  = flat_map definition_header (filter is_function_def class_body).
Proof.
  induction class_body as [| item rest IH]; [reflexivity |].
  cbn [flat_map filter]. rewrite map_app, IH.
  destruct item; reflexivity.
Qed.

Lemma get_docstring_statement (body : list stmt) :
  get_docstring cleandoc (docstring_statement body)
  = get_docstring cleandoc body.
Proof.
  destruct body as [| [| | | | | [| | | [] | | | |] l | | | | | | | |] rest];
    reflexivity.
Qed.

Lemma get_docstring_pruned_functions (body : list stmt) :
  get_docstring cleandoc (map prune_function (filter is_function_def body))
  = None.
Proof.
  induction body as [| item rest IH]; [reflexivity |].
  destruct item; simpl; auto.
Qed.

Lemma extract_function_docstring_only (is_async : bool) (name : string)
    (node_args : arguments) (decorator_list : list expr)
    (lineno end_lineno : Z) (parent_class : option string)
    (body body' : list stmt) :
  get_docstring cleandoc body = get_docstring cleandoc body' ->
  extract_function cleandoc is_async name node_args body decorator_list
    lineno end_lineno source_code parent_class
  = extract_function cleandoc is_async name node_args body' decorator_list
      lineno end_lineno source_code parent_class.
Proof.
  intro H. unfold extract_function, docstring_or_empty. now rewrite H.
Qed.

Lemma method_of_pruned (class_name : string) (class_body : list stmt) :
  flat_map (method_of class_name)
    (docstring_statement class_body
     ++ map prune_function (filter is_function_def class_body))
  = flat_map (method_of class_name) class_body.
Proof.
  rewrite flat_map_app.
  replace (flat_map (method_of class_name) (docstring_statement class_body))
    with (@nil function_entity).
  - simpl. subst method_of.
    induction class_body as [| item rest IH]; [reflexivity |].
    destruct item; simpl; try exact IH;
      (f_equal;
       [apply extract_function_docstring_only, get_docstring_statement
       | exact IH]).
  - destruct class_body
      as [| [| | | | | [| | | [] | | | |] l | | | | | | | |] rest];
      reflexivity.
Qed.

Lemma get_docstring_pruned_class (body : list stmt) :
  get_docstring cleandoc
    (docstring_statement body
     ++ map prune_function (filter is_function_def body))
  = get_docstring cleandoc body.
Proof.
  destruct body as [| item rest]; [reflexivity |].
  pose proof (get_docstring_pruned_functions (item :: rest)) as Hf.
  destruct item; try exact Hf.
  match goal with v : expr |- _ => destruct v end; try exact Hf.
  match goal with c : constant |- _ => destruct c end; try exact Hf.
  reflexivity.
Qed.

Lemma entity_of_pruned (node : stmt) :
  is_definition node = true ->
  entity_of (prune_definition node) = entity_of node.
Proof.
  subst entity_of. destruct node; try discriminate; intros _; simpl.
  - do 2 f_equal.
    apply extract_function_docstring_only, get_docstring_statement.
  - do 2 f_equal.
    apply extract_function_docstring_only, get_docstring_statement.
  - do 2 f_equal. unfold extract_class, docstring_or_empty.
    now rewrite !collect_methods_flat_map, method_of_pruned,
      get_docstring_pruned_class.
Qed.

(** C7.  Extraction looks at the statements of the module body and, for a
    top-level class, at the statements of the class body, and no deeper.
    The entities of a file are, in order, what each top-level statement
    gives by itself: a class or function definition its one entity, any
    other statement nothing; the methods of a class entity are what each
    statement of the class body gives by itself.  So the records, with
    their types, names and lines, are exactly the top-level definitions
    and the function definitions directly in top-level class bodies, and
    their number is the number of those.  Statements of the module body
    that are not definitions, and statements of a class body that are not
    function definitions (a nested class among them), change nothing; a
    function entity depends on the function's body through its docstring
    alone; and removing from the tree everything below that depth leaves
    the entities as they are: what is nested gives no record. *)
Theorem extraction_depth_limit :
  (forall tree_body,
     record_count (extract_entities cleandoc tree_body source_code)
     = expected_records tree_body) /\
  (forall tree_body,
     extract_entities cleandoc tree_body source_code
     = extract_entities cleandoc (filter is_definition tree_body)
         source_code) /\
  (forall class_name class_body,
     collect_methods cleandoc class_name source_code class_body
     = collect_methods cleandoc class_name source_code
         (filter is_function_def class_body)) /\
  (forall is_async name node_args decorator_list lineno end_lineno
          parent_class body body',
     get_docstring cleandoc body = get_docstring cleandoc body' ->
     extract_function cleandoc is_async name node_args body decorator_list
       lineno end_lineno source_code parent_class
     = extract_function cleandoc is_async name node_args body' decorator_list
         lineno end_lineno source_code parent_class) /\
  (forall tree_body,
     extract_entities cleandoc tree_body source_code
     = flat_map (Spec.entity_of cleandoc source_code) tree_body) /\
  (forall class_name class_body,
     collect_methods cleandoc class_name source_code class_body
     = flat_map (Spec.method_of cleandoc source_code class_name) class_body) /\
  (forall tree_body,
     record_headers (extract_entities cleandoc tree_body source_code)
     = definition_headers tree_body) /\
  (forall tree_body,
     extract_entities cleandoc (prune_module tree_body) source_code
     = extract_entities cleandoc tree_body source_code) /\
  record_headers (extract_entities cleandoc nested_module source_code)
  = [("function", "outer", 1%Z, 3%Z, Some false);
     ("class", "Invoice", 4%Z, 10%Z, None);
     ("function", "validate", 8%Z, 10%Z, Some false)].
Proof.
  split; [| split; [| split; [| split; [| split; [| split; [| split;
    [| split]]]]]]].
  - intro tree_body. rewrite extract_entities_flat_map.
    unfold record_count, expected_records.
    induction tree_body as [| node rest IH]; [reflexivity |].
    cbn [flat_map map].
    rewrite map_app, list_sum_app, IH.
    change (list_sum (?a :: ?l)) with (a + list_sum l). f_equal.
    destruct node; try reflexivity.
    subst entity_of. cbn.
    rewrite collect_methods_flat_map, method_count_direct. lia.
  - intro tree_body. rewrite !extract_entities_flat_map.
    symmetry. apply flat_map_filter. now intros [].
  - intros class_name class_body. rewrite !collect_methods_flat_map.
    symmetry. apply flat_map_filter. now intros [].
  - intros. now apply extract_function_docstring_only.
  - exact extract_entities_flat_map.
  - exact collect_methods_flat_map.
  - intro tree_body. rewrite extract_entities_flat_map.
    unfold record_headers, definition_headers.
    induction tree_body as [| node rest IH]; [reflexivity |].
    cbn [flat_map]. rewrite flat_map_app, IH. f_equal.
    destruct node; try reflexivity.
    subst entity_of. cbn [Spec.entity_of flat_map app].
    unfold extract_class at 2. cbn [cls_methods].
    rewrite collect_methods_flat_map, method_headers_direct.
    now rewrite app_nil_r.
  - intro tree_body. rewrite !extract_entities_flat_map.
    unfold prune_module.
    induction tree_body as [| node rest IH]; [reflexivity |].
    cbn [filter flat_map]. rewrite <- IH.
    destruct (is_definition node) eqn:E.
    + cbn [map flat_map]. now rewrite (entity_of_pruned node E).
    + destruct node; try discriminate; reflexivity.
  - reflexivity.
Qed.

End Depth.

Lemma extraction_depth_limit_witness :
  get_docstring (fun s => s) [FunctionDef "inner" no_args [Pass 3] [] 2 3]
  = get_docstring (fun s => s) [Pass 2] /\
  extract_function (fun s => s) false "outer" no_args
    [FunctionDef "inner" no_args [Pass 3] [] 2 3] [] 1 3 "" None
  = extract_function (fun s => s) false "outer" no_args
      [Pass 2] [] 1 3 "" None.
Proof.
  split; [reflexivity |].
  apply (proj1 (proj2 (proj2 (proj2
           (extraction_depth_limit (fun s => s) ""))))).
  reflexivity.
Defined.

(** Of the seven definitions of [nested_module] three are recorded. *)
Example nested_module_records :
  record_names (extract_entities (fun s => s) nested_module "")
  = ["outer"; "Invoice"; "validate"].
Proof. reflexivity. Qed.

(** ** Failure isolation in the catalog builder *)

Section Catalog.

Variable cleandoc : string -> string.
Variable read_text : string -> result string.
Variable parse : string -> result (list stmt).
Variable is_file : string -> bool.
Variables suffix parent : string -> string.
Variable rglob_py : string -> list string.
Variable relative_to : string -> string -> result string.

Let from_file := extract_entities_from_file cleandoc read_text parse.
Let process := process_file cleandoc read_text parse parent relative_to.
Let loop := catalog_loop cleandoc read_text parse parent relative_to.
Let from_directory :=
  extract_entities_from_directory cleandoc read_text parse is_file suffix
    parent rglob_py relative_to.
Let candidates := python_files_of is_file suffix rglob_py.

(** A file whose reading or parsing raises leaves the catalog as it was. *)
Lemma process_file_failure (path file_path : string) (e : exception)
    (all_entities : catalog) :
  from_file file_path = Raise e -> is_Exception e = true ->
  process path file_path all_entities = Ok all_entities.
Proof.
  intros Hf He. subst process from_file.
  unfold process_file, try_body. rewrite Hf. simpl. now rewrite He.
Qed.

(** A file that is read and parsed adds its entry. *)
Lemma process_file_success (path file_path relative_path : string)
    (entities : list entity) (all_entities : catalog) :
  from_file file_path = Ok entities ->
  relative_to file_path (parent path) = Ok relative_path ->
  process path file_path all_entities
  = Ok (fold_left (fun c kv => dict_set c (fst kv) (snd kv))
          (catalog_entry relative_path entities) all_entities).
Proof.
  intros Hf Hr. subst process from_file.
  unfold process_file, try_body. rewrite Hf. simpl.
  destruct entities; [reflexivity |]. now rewrite Hr.
Qed.

Lemma catalog_loop_app (path : string) (l1 l2 : list string) :
  forall all_entities,
  loop path (l1 ++ l2) all_entities
  = (c <- loop path l1 all_entities ;; loop path l2 c).
Proof.
  subst loop.
  induction l1 as [| f l1 IH]; intro all_entities; simpl; [reflexivity |].
  destruct (process_file _ _ _ _ _ _ _ _) as [c | e]; simpl;
    [apply IH | reflexivity].
Qed.

(** When reading, parsing and path computation raise nothing but
    [Exception]s, the loop ends with a catalog whatever the files hold. *)
Lemma catalog_loop_returns (path : string) (python_files : list string) :
  (forall file_path e,
     read_text file_path = Raise e -> is_Exception e = true) ->
  (forall source_code e,
     parse source_code = Raise e -> is_Exception e = true) ->
  (forall file_path base e,
     relative_to file_path base = Raise e -> is_Exception e = true) ->
  forall all_entities,
  exists all_entities', loop path python_files all_entities = Ok all_entities'.
Proof.
  intros Hread Hparse Hrel. subst loop.
  induction python_files as [| f rest IH]; intro all_entities; simpl;
    [now exists all_entities |].
  assert (Hp : exists c, process_file cleandoc read_text parse parent
                           relative_to path f all_entities = Ok c).
  { unfold process_file, try_body, extract_entities_from_file.
    destruct (read_text f) as [src | e] eqn:Er; simpl;
      [| rewrite (Hread _ _ Er); eauto].
    destruct (parse src) as [body | e] eqn:Ep; simpl;
      [| rewrite (Hparse _ _ Ep); eauto].
    destruct (extract_entities cleandoc body src) as [| ent ents]; simpl;
      [eauto |].
    destruct (relative_to f (parent path)) as [r | e] eqn:Erel; simpl;
      [eauto | rewrite (Hrel _ _ _ Erel); eauto]. }
  destruct Hp as [c Hp]. rewrite Hp. simpl. apply IH.
Qed.

(** C3.  A candidate file whose reading or parsing raises an exception does
    not end the run: the catalog of the run is the catalog of the run over
    the other candidates alone.  With one such file among three candidates,
    the result is a catalog (not an exception) holding exactly the entries
    of the two files that parse. *)
Theorem failure_isolated :
  forall path l1 bad l2 e,
  candidates path = l1 ++ bad :: l2 ->
  from_file bad = Raise e ->
  is_Exception e = true ->
  from_directory path = loop path (l1 ++ l2) [] /\
  (forall good1 good2 entities1 entities2 rel1 rel2,
     l1 ++ l2 = [good1; good2] ->
     from_file good1 = Ok entities1 ->
     from_file good2 = Ok entities2 ->
     relative_to good1 (parent path) = Ok rel1 ->
     relative_to good2 (parent path) = Ok rel2 ->
     rel1 <> rel2 ->
     from_directory path
     = Ok (catalog_entry rel1 entities1 ++ catalog_entry rel2 entities2)).
Proof.
  intros path l1 bad l2 e Hc Hbad He.
  assert (Hskip : from_directory path = loop path (l1 ++ l2) []).
  { subst from_directory. unfold extract_entities_from_directory.
    fold (candidates path). rewrite Hc. fold loop.
    rewrite !catalog_loop_app.
    destruct (loop path l1 []) as [c |]; simpl; [| reflexivity].
    fold process. now rewrite (process_file_failure _ _ _ _ Hbad He). }
  split; [exact Hskip |].
  intros good1 good2 entities1 entities2 rel1 rel2 Hl H1 H2 Hr1 Hr2 Hne.
  rewrite Hskip, Hl. subst loop. simpl. fold process.
  rewrite (process_file_success _ _ _ _ _ H1 Hr1). simpl.
  rewrite (process_file_success _ _ _ _ _ H2 Hr2). simpl.
  f_equal. destruct entities1, entities2; simpl; try reflexivity.
  destruct (String.eqb_spec rel1 rel2); [contradiction | reflexivity].
Qed.

End Catalog.

Lemma failure_isolated_witness :
  sample_directory "proj"
  = Ok [("proj/a.py",
         [EFunction (extract_function (fun s => s) false "f" no_args [Pass 1]
                       [] 1 1 "def f(): pass" None)]);
        ("proj/c.py",
         [EClass (extract_class (fun s => s) "C" [] [Pass 1] [] 1 1
                    "class C: pass")])].
Proof.
  refine (proj2 (failure_isolated (fun s => s) sample_read_text sample_parse
                   (fun _ => false) (fun _ => "") (fun _ => "") sample_rglob
                   sample_relative_to "proj" ["proj/a.py"] "proj/bad.py"
                   ["proj/c.py"] (SyntaxError "invalid syntax")
                   eq_refl eq_refl eq_refl)
            "proj/a.py" "proj/c.py" _ _ "proj/a.py" "proj/c.py"
            eq_refl eq_refl eq_refl eq_refl eq_refl _).
  discriminate.
Defined.

(** ** The node visitor *)

Import Analyzer.

(** Induction over statements through their child statements. *)
Lemma stmt_children_ind (P : stmt -> Prop) :
  (forall node, Forall P (children node) -> P node) ->
  forall node, P node.
Proof.
  intro step. fix IH 1. intro node. apply step.
  pose (all := fix all (l : list stmt) : Forall P l :=
          match l with
          | [] => Forall_nil P
          | x :: l' => Forall_cons x (IH x) (all l')
          end).
  destruct node; simpl children; try apply Forall_nil;
    try (match goal with |- Forall P ?l => is_var l; apply all end).
  - apply Forall_app; split; apply all.
  - apply Forall_app; split; apply all.
  - apply Forall_app; split; apply all.
  - apply Forall_app; split; [apply all |].
    apply Forall_app; split; [| apply Forall_app; split; apply all].
    induction handlers as [| h handlers IHh]; simpl; [constructor |].
    apply Forall_app. split; [| assumption].
    destruct h as [t n hbody l]. simpl. apply all.
Qed.

(** [descendants] in terms of [children]. *)
Lemma descendants_children (node : stmt) :
  descendants node = node :: flat_map descendants (children node).
Proof.
  destruct node; simpl; rewrite ?flat_map_app; try reflexivity.
  do 3 f_equal. induction handlers as [| [t n hbody l] handlers IH]; simpl;
    [reflexivity |].
  now rewrite flat_map_app, IH.
Qed.

(** The hook sub-pass appends its records and touches nothing else. *)
Lemma analyze_on_submit_spec (body : list stmt) : forall self,
  analyze_on_submit body self
  = {| methods_found := methods_found self;
       business_rules := business_rules self ++ hook_rules body;
       dependencies := dependencies self;
       current_function := current_function self |}.
Proof.
  unfold analyze_on_submit, hook_rules, direct_calls.
  induction body as [| item body IH]; intro self; simpl.
  - rewrite app_nil_r. now destruct self.
  - rewrite IH. clear IH.
    destruct item as [| | | | | [| | f a k | | | | |] l | | | | | | | |];
      try reflexivity.
    destruct f; try reflexivity.
    simpl. now rewrite <- app_assoc.
Qed.

Lemma visit_list_effect (l : list stmt) :
  Forall visit_effect l ->
  forall self,
    methods_found (fold_left (fun s n => visit n s) l self)
    = methods_found self
      + length (filter is_sync_def (flat_map descendants l)) /\
    business_rules (fold_left (fun s n => visit n s) l self)
    = business_rules self
      ++ flat_map hook_rules_of (flat_map descendants l).
Proof.
  induction 1 as [| node l Hn _ IH]; intro self; simpl.
  - now rewrite Nat.add_0_r, app_nil_r.
  - destruct (IH (visit node self)) as [Hm Hb].
    destruct (Hn self) as [Hm' Hb'].
    rewrite Hm, Hb, Hm', Hb'.
    rewrite filter_app, length_app, flat_map_app, <- app_assoc.
    split; lia || reflexivity.
Qed.

(** [generic_visit] goes through the child statements. *)
Lemma visit_handlers_children (handlers : list excepthandler) : forall self,
  fold_left (fun s h => visit_handler h s) handlers self
  = fold_left (fun s n => visit n s) (flat_map handler_body handlers) self.
Proof.
  induction handlers as [| [t n hbody l] handlers IH]; intro self; simpl;
    [reflexivity |].
  now rewrite fold_left_app, IH.
Qed.

Lemma generic_visit_children (node : stmt) (self : ERPNextAnalyzer) :
  match node with
  | FunctionDef _ _ _ _ _ _ | ImportFrom _ _ _ _ => True
  | _ => visit node self = fold_left (fun s n => visit n s) (children node) self
  end.
Proof.
  destruct node; simpl; rewrite ?fold_left_app; try exact I; try reflexivity.
  now rewrite visit_handlers_children.
Qed.

Lemma visit_all_effect : forall node, visit_effect node.
Proof.
  apply stmt_children_ind. intros node Hc self.
  rewrite descendants_children.
  pose proof (generic_visit_children node self) as Hg.
  pose proof (visit_list_effect _ Hc) as Hl.
  destruct node;
    try (rewrite Hg; destruct (Hl self) as [Hm Hb]; rewrite Hm, Hb;
         split; reflexivity).
  - (* FunctionDef *)
    simpl children in *. cbn [visit].
    cbn [filter is_sync_def length flat_map hook_rules_of].
    set (self1 := if name =? "on_submit" then _ else _).
    destruct (Hl self1) as [Hm Hb].
    cbn [methods_found business_rules set_current_function].
    rewrite Hm, Hb. subst self1.
    destruct (name =? "on_submit").
    + rewrite analyze_on_submit_spec. simpl. rewrite <- app_assoc.
      split; [lia | reflexivity].
    + simpl. split; [lia | reflexivity].
  - (* ImportFrom *)
    simpl. rewrite Nat.add_0_r, app_nil_r.
    destruct module as [m |]; [destruct (truthy m) |]; split; reflexivity.
Qed.

Lemma direct_calls_filter (body : list stmt) :
  length (direct_calls body)
  = length (filter is_direct_attribute_call body) /\
  map snd (direct_calls body)
  = map lineno_of (filter is_direct_attribute_call body).
Proof.
  unfold direct_calls, is_direct_attribute_call.
  induction body as [| item body [IHl IHm]]; simpl; [now split |].
  rewrite length_app, map_app, IHl, IHm.
  destruct (direct_attribute_call item) as [[attr line] |] eqn:E; simpl;
    [| now split].
  split; [reflexivity |]. f_equal.
  unfold direct_attribute_call in E.
  repeat match type of E with
         | match ?x with _ => _ end = Some _ => destruct x; try discriminate
         end.
  now inversion E.
Qed.

Lemma direct_calls_app (l1 l2 : list stmt) :
  direct_calls (l1 ++ l2) = direct_calls l1 ++ direct_calls l2.
Proof. unfold direct_calls. apply flat_map_app. Qed.

(** C2.  The hook sub-pass adds, after the records already there, exactly
    one record per immediate statement of the hook body that is an
    expression statement calling an attribute access, in source order, each
    with [source_method] "on_submit" and the line of its statement; an [if]
    statement (whatever calls it holds) and an assignment of a call add
    nothing.  Three direct calls [self.x()], [self.y()], [self.z()] give
    three records in that order. *)
Theorem hook_call_analyzer :
  forall (body : list stmt) (self : ERPNextAnalyzer),
  let rules := hook_rules body in
  business_rules (analyze_on_submit body self) = business_rules self ++ rules /\
  length rules = length (filter is_direct_attribute_call body) /\
  map line_number rules
  = map lineno_of (filter is_direct_attribute_call body) /\
  Forall (fun r => source_method r = "on_submit") rules /\
  (forall l1 l2 test then_body orelse lineno,
     body = l1 ++ If test then_body orelse lineno :: l2 ->
     rules = hook_rules (l1 ++ l2)) /\
  (forall l1 l2 targets value lineno,
     body = l1 ++ Assign targets value lineno :: l2 ->
     rules = hook_rules (l1 ++ l2)) /\
  (forall node_args decorator_list lineno end_lineno,
     business_rules (visit (FunctionDef "on_submit" node_args body
                              decorator_list lineno end_lineno) self)
     = business_rules self ++ rules
       ++ flat_map hook_rules_of (flat_map descendants body)) /\
  map (fun r => (source_method r, calls r, line_number r))
    (business_rules (analyze_on_submit three_calls self))
  = map (fun r => (source_method r, calls r, line_number r))
      (business_rules self)
    ++ [("on_submit", "x", 3%Z); ("on_submit", "y", 4%Z);
        ("on_submit", "z", 5%Z)].
Proof.
  intros body self rules. subst rules.
  destruct (direct_calls_filter body) as [Hlen Hlines].
  split; [now rewrite analyze_on_submit_spec |].
  split; [unfold hook_rules; now rewrite length_map |].
  split; [unfold hook_rules; rewrite map_map; simpl; exact Hlines |].
  split; [unfold hook_rules; apply Forall_forall; intros r Hr;
          apply in_map_iff in Hr; destruct Hr as [c [<- _]]; reflexivity |].
  split; [intros l1 l2 test then_body orelse lineno ->; unfold hook_rules;
          now rewrite !direct_calls_app |].
  split; [intros l1 l2 targets value lineno ->; unfold hook_rules;
          now rewrite !direct_calls_app |].
  split.
  - intros. destruct (visit_all_effect
                        (FunctionDef "on_submit" node_args body decorator_list
                           lineno end_lineno) self) as [_ Hb].
    rewrite Hb. simpl. reflexivity.
  - rewrite analyze_on_submit_spec. simpl. now rewrite map_app.
Qed.

Lemma hook_call_analyzer_witness :
  map calls (hook_rules hook_body) = ["x"; "y"; "z"].
Proof.
  destruct (hook_call_analyzer hook_body init)
    as [_ [_ [_ [_ [Hif _]]]]].
  rewrite (Hif [self_call "x" 3]
             [self_call "y" 6;
              Assign [Name "r"]
                (Call (Attribute (Name "self") "assigned") [] []) 7;
              Expr (Call (Name "plain") [] []) 8;
              self_call "z" 9]
             (Name "cond") [self_call "nested" 5] [] 4%Z eq_refl).
  destruct (hook_call_analyzer
              ([self_call "x" 3] ++
               [self_call "y" 6;
                Assign [Name "r"]
                  (Call (Attribute (Name "self") "assigned") [] []) 7;
                Expr (Call (Name "plain") [] []) 8;
                self_call "z" 9]) init)
    as [_ [_ [_ [_ [_ [Hassign _]]]]]].
  rewrite (Hassign [self_call "x" 3; self_call "y" 6]
             [Expr (Call (Name "plain") [] []) 8; self_call "z" 9]
             [Name "r"] (Call (Attribute (Name "self") "assigned") [] [])
             7%Z eq_refl).
  reflexivity.
Defined.

(** The hook body with every shape of statement, run through the visitor. *)
Example hook_body_visited :
  business_rules
    (visit_module [FunctionDef "on_submit" self_args hook_body [] 2 9] init)
  = [mk_business_rule "on_submit" "x" 3; mk_business_rule "on_submit" "y" 6;
     mk_business_rule "on_submit" "z" 9].
Proof. reflexivity. Qed.

(** C9.  Run over a module, the visitor counts in [methods_found] the
    synchronous function definitions among all statements of the tree, at
    any depth, and its records are those of the synchronous definitions of
    the hook, in source order.  An [async def] is only passed through to
    its body: it is not counted and, when it is named like the hook, its
    own calls give no record. *)
Theorem methods_found_sync_only :
  forall (tree_body : list stmt),
  methods_found (visit_module tree_body init)
  = length (filter is_sync_def (flat_map descendants tree_body)) /\
  business_rules (visit_module tree_body init)
  = flat_map hook_rules_of (flat_map descendants tree_body) /\
  (forall name node_args body decorator_list lineno end_lineno self,
     visit (AsyncFunctionDef name node_args body decorator_list lineno
              end_lineno) self
     = fold_left (fun s n => visit n s) body self /\
     is_sync_def (AsyncFunctionDef name node_args body decorator_list lineno
                    end_lineno) = false /\
     hook_rules_of (AsyncFunctionDef name node_args body decorator_list lineno
                      end_lineno) = []) /\
  methods_found (visit_module (invoice_module true) init) = 0 /\
  business_rules (visit_module (invoice_module true) init) = [] /\
  methods_found (visit_module (invoice_module false) init) = 1 /\
  map calls (business_rules (visit_module (invoice_module false) init))
  = ["update_stock"; "make_gl_entries"].
Proof.
  intro tree_body.
  assert (Hall : Forall visit_effect tree_body)
    by (apply Forall_forall; intros; apply visit_all_effect).
  destruct (visit_list_effect tree_body Hall init) as [Hm Hb].
  unfold visit_module. rewrite Hm, Hb. simpl.
  repeat split.
Qed.


(** ** The document flattener *)

Import RAG.

(** A loop over [map g l] whose body appends [f x] for the element [g x]
    collects [flat_map f l]. *)
Lemma for_each_collect {A B C : Type} (body : list C -> B -> result (list C))
    (g : A -> B) (f : A -> list C) :
  (forall acc x, body acc (g x) = Ok (acc ++ f x)) ->
  forall l acc, for_each body (map g l) acc = Ok (acc ++ flat_map f l).
Proof.
  intros Hb l. induction l as [| x l IH]; intro acc; simpl.
  - now rewrite app_nil_r.
  - now rewrite Hb; simpl; rewrite IH, <- app_assoc.
Qed.

Lemma append_entity_sourced (file : string) (e : sourced_entity)
    (documents : list document) :
  append_entity file documents (json_of_sourced_entity e)
  = Ok (documents ++ flatten_entity file e).
Proof.
  destruct e as [name source_code methods | name source_code];
    [| reflexivity].
  unfold append_entity, json_of_sourced_entity.
  cbn [getitem dict_get bind eq_str iterate String.eqb Ascii.eqb Bool.eqb].
  rewrite (for_each_collect _ json_of_sourced_method
             (fun m => [mk_document (JStr (sm_source_code m))
                          (mk_doc_metadata file (Some (JStr name))
                             (JStr (sm_name m)) "method")])).
  - rewrite <- app_assoc. simpl. do 3 f_equal.
  - reflexivity.
Qed.

(** On a catalog whose entities carry their source text, the flattener
    returns the documents of the specification: per file in catalog order,
    per entity in source order, the class document, then its method
    documents in method order, or the function document. *)
Lemma build_documents_sourced (c : dict (list sourced_entity)) :
  build_documents (json_of_sourced_catalog c) = Ok (flatten c).
Proof.
  unfold build_documents, json_of_sourced_catalog, flatten. simpl.
  rewrite (for_each_collect _
             (fun kv => (fst kv, JList (map json_of_sourced_entity (snd kv))))
             (fun kv => flat_map (flatten_entity (fst kv)) (snd kv)));
    [reflexivity |].
  intros acc [file entities]. simpl.
  apply for_each_collect. intros. apply append_entity_sourced.
Qed.

(** No entity the extractor builds has a [source_code] key. *)
Lemma extracted_entity_has_no_source (e : entity) :
  getitem (json_of_entity e) "source_code" = Raise (KeyError "source_code").
Proof. destruct e; reflexivity. Qed.

Lemma append_entity_extracted (file : string) (e : entity)
    (documents : list document) :
  append_entity file documents (json_of_entity e)
  = Raise (KeyError "source_code").
Proof.
  destruct e as [c | f]; unfold append_entity; simpl.
  - destruct (cls_type c =? "class"); reflexivity.
  - destruct (fn_type f =? "class"); reflexivity.
Qed.

(** On a catalog written by the extractor, the flattener stops at the
    first entity of the first file. *)
Lemma build_documents_extracted (file : string) (e : entity)
    (entities : list entity) (rest : catalog) :
  build_documents (json_of_catalog ((file, e :: entities) :: rest))
  = Raise (KeyError "source_code").
Proof.
  unfold build_documents, json_of_catalog. simpl.
  now rewrite append_entity_extracted.
Qed.

(** C1.  The catalog the extractor builds for the directory [proj] (a
    function [f] and a class [C]) makes the flattener raise
    [KeyError('source_code')], where the specification has it return one
    document
    for [f] and one for [C]; on the same two entities with their source
    text attached it returns just those. *)
Theorem flattener_on_extracted_catalog :
  exists cat,
    sample_directory "proj" = Ok cat /\
    map fst cat = ["proj/a.py"; "proj/c.py"] /\
    build_documents (json_of_catalog cat) = Raise (KeyError "source_code") /\
    build_documents
      (json_of_sourced_catalog
         [("proj/a.py", [SFunction "f" "def f(): pass"]);
          ("proj/c.py", [SClass "C" "class C: pass" []])])
    = Ok [mk_document (JStr "def f(): pass")
            (mk_doc_metadata "proj/a.py" None (JStr "f") "function");
          mk_document (JStr "class C: pass")
            (mk_doc_metadata "proj/c.py" None (JStr "C") "class")].
Proof.
  eexists. split; [reflexivity |]. repeat split.
Qed.

(** ** Index and metadata alignment *)

Lemma list_getitem_position {A : Type} (l : list A) (idx : Z) :
  (0 <= idx < Z.of_nat (length l))%Z ->
  exists x, list_getitem l idx = Ok x /\ nth_error l (Z.to_nat idx) = Some x.
Proof.
  intros [H0 Hn]. unfold list_getitem.
  destruct (Z.ltb_spec idx 0); [lia |].
  destruct (Z.leb_spec 0 idx); [| lia].
  destruct (Z.ltb_spec idx (Z.of_nat (length l))); [| lia]. simpl.
  destruct (nth_error l (Z.to_nat idx)) as [x |] eqn:E; [now exists x |].
  apply nth_error_None in E. lia.
Qed.

(** A counted-from-the-end index is an entry as well: [l[-1]] is the last
    one. *)
Lemma list_getitem_minus_one {A : Type} (l : list A) (x : A) :
  list_getitem (l ++ [x]) (-1) = Ok x.
Proof.
  unfold list_getitem. rewrite length_app. simpl length.
  destruct (Z.ltb_spec (-1) 0); [| lia].
  replace (-1 + Z.of_nat (length l + 1))%Z with (Z.of_nat (length l)) by lia.
  destruct (Z.leb_spec 0 (Z.of_nat (length l))); [| lia].
  destruct (Z.ltb_spec (Z.of_nat (length l)) (Z.of_nat (length l + 1)));
    [| lia]. simpl.
  rewrite Nat2Z.id, nth_error_app2, Nat.sub_diag by lia. reflexivity.
Qed.

Section Alignment.

Variable scalar : Type.
Variable encode : list json -> list (vector scalar).
Variable to_float32 : scalar -> scalar.
Variable search :
  flat_index scalar -> list (vector scalar) -> nat -> list (list Z).

(** The embedding service is order-preserving: the row at position [i] is
    the embedding of the text at position [i]. *)
Variable embed : json -> vector scalar.
Hypothesis encode_order_preserving :
  forall texts, encode texts = map embed texts.

Lemma retrieve_loop (metadata : list document) (row : list Z) :
  Forall (fun idx => (0 <= idx < Z.of_nat (length metadata))%Z) row ->
  forall results,
  exists found,
    for_each (fun results idx =>
                d <- list_getitem metadata idx ;; Ok (results ++ [d]))
      row results = Ok (results ++ found) /\
    Forall2 (fun idx d => nth_error metadata (Z.to_nat idx) = Some d)
      row found.
Proof.
  induction 1 as [| idx row Hidx _ IH]; intro results; simpl.
  - exists []. now rewrite app_nil_r.
  - destruct (list_getitem_position metadata idx Hidx) as [d [Hd Hn]].
    rewrite Hd. simpl.
    destruct (IH (results ++ [d])) as [found [Hf Hall]].
    exists (d :: found). rewrite Hf, <- app_assoc. split; [reflexivity |].
    now constructor.
Qed.

(** C4.  Built from a non-empty document sequence, the two artifacts are
    aligned: the metadata store is the document sequence, the index holds
    as many vectors, and the vector at position [i] is the embedding of the
    text of the document at position [i]; at query time every position the
    search returns is answered with the metadata entry at that position,
    in the order returned. *)
Theorem index_metadata_aligned :
  forall (docs : list document) (files : store scalar),
  docs <> [] ->
  exists index,
    build_index scalar encode to_float32 docs files
    = Ok (mk_store scalar (Some index) (Some docs)) /\
    length (vectors scalar index) = length docs /\
    (forall i d, nth_error docs i = Some d ->
       nth_error (vectors scalar index) i
       = Some (map to_float32 (embed (text d)))) /\
    (forall query top_k row,
       list_getitem
         (search index (astype_float32 scalar to_float32 (encode [JStr query]))
            top_k) 0 = Ok row ->
       Forall (fun idx => (0 <= idx < Z.of_nat (length docs))%Z) row ->
       exists results,
         retrieve scalar encode to_float32 search
           (mk_store scalar (Some index) (Some docs)) query top_k
         = Ok results /\
         Forall2 (fun idx d => nth_error docs (Z.to_nat idx) = Some d)
           row results).
Proof.
  intros docs files Hne.
  unfold build_index, astype_float32.
  rewrite encode_order_preserving, !map_map.
  match goal with
  | |- context [shape1 ?s ?rows] =>
      assert (Hs : exists n, shape1 s rows = Ok n)
        by (destruct docs; [contradiction | eexists; reflexivity]);
      destruct Hs as [n Hs]; rewrite Hs
  end.
  cbn [bind meta_file index_file].
  eexists. split; [reflexivity |]. cbn [vectors].
  split; [now rewrite length_map |].
  split.
  - intros i d Hd. now rewrite nth_error_map, Hd.
  - intros query top_k row Hrow Hpos.
    unfold retrieve, astype_float32. cbn [index_file meta_file bind].
    rewrite Hrow. cbn [bind].
    destruct (retrieve_loop docs row Hpos []) as [found [Hf Hall]].
    exists found. split; [exact Hf | exact Hall].
Qed.

(** Without documents there is no row to take the dimension from. *)
Lemma build_index_empty (files : store scalar) :
  build_index scalar encode to_float32 [] files
  = Raise (IndexError "tuple index out of range").
Proof.
  unfold build_index. now rewrite encode_order_preserving.
Qed.

End Alignment.

Lemma index_metadata_aligned_witness :
  sample_docs <> [] /\
  exists index,
    build_index Z (map sample_embed) (fun x => x) sample_docs no_files
    = Ok (mk_store Z (Some index) (Some sample_docs)) /\
    vectors Z index = [[13%Z; 1%Z]; [13%Z; 1%Z]] /\
    retrieve Z (map sample_embed) (fun x => x) sample_search
      (mk_store Z (Some index) (Some sample_docs)) "class" 2
    = Ok (rev sample_docs).
Proof.
  split; [discriminate |].
  destruct (index_metadata_aligned Z (map sample_embed) (fun x => x)
              sample_search sample_embed (fun texts => eq_refl)
              sample_docs no_files) as [index [Hb _]]; [discriminate |].
  exists index. split; [exact Hb |].
  injection Hb as <-. split; reflexivity.
Defined.

(** * Further properties of the extractor *)

Lemma chain_segments_chain (attrs : list string) : forall root,
  chain_segments (chain root attrs) = chain_segments root ++ attrs.
Proof.
  unfold chain.
  induction attrs as [| a attrs IH]; intro root; simpl.
  - now rewrite app_nil_r.
  - rewrite IH. simpl. now rewrite <- app_assoc.
Qed.

(** X1.  Resolution undoes chain building: the chain built on the
    identifier [id] with the attributes [attrs] resolves to the identifier
    and the attributes joined with dots; on a root that is neither a name
    nor an attribute access (a call, a subscript) the root is left out and
    the attributes alone are joined. *)
Theorem attribute_chain_round_trip :
  (forall id attrs,
     get_attribute_name (chain (Name id) attrs)
     = String.concat "." (id :: attrs)) /\
  (forall root attrs,
     is_name_or_attribute root = false ->
     get_attribute_name (chain root attrs) = String.concat "." attrs).
Proof.
  split.
  - intros id attrs.
    now rewrite get_attribute_name_segments, chain_segments_chain.
  - intros root attrs Hroot.
    rewrite get_attribute_name_segments, chain_segments_chain.
    destruct root; simpl in *; congruence.
Qed.

Lemma attribute_chain_round_trip_witness :
  get_attribute_name
    (chain (Call (Name "get_app") [] []) ["hooks"; "register"])
  = "hooks.register".
Proof.
  rewrite (proj2 attribute_chain_round_trip
             (Call (Name "get_app") [] []) ["hooks"; "register"] eq_refl).
  reflexivity.
Defined.

(** X2.  A decorator that is called, however many times and with whatever
    arguments, resolves to what the called expression resolves to. *)
Theorem decorator_through_calls :
  forall applications e,
  get_decorator_name (called e applications) = get_decorator_name e.
Proof.
  unfold called.
  induction applications as [| a rest IH]; intro e; simpl; [reflexivity |].
  now rewrite IH.
Qed.

(** X3.  The bases of a class entity are the bases that are names or
    attribute chains, in order, each resolved as a decorator would be; a
    base of any other shape (a subscript, a call) is left out, not recorded
    as unknown. *)
Theorem bases_resolved :
  forall node_bases,
  collect_bases node_bases
  = map get_decorator_name (filter is_name_or_attribute node_bases).
Proof.
  intro node_bases. unfold collect_bases.
  rewrite (fold_left_collect _
             (fun base => if is_name_or_attribute base
                          then [get_decorator_name base] else [])).
  - rewrite app_nil_l.
    induction node_bases as [| b bs IH]; [reflexivity |].
    cbn [flat_map filter].
    destruct (is_name_or_attribute b); cbn [map app]; now rewrite IH.
  - intros acc []; simpl; now rewrite ?app_nil_r.
Qed.

Lemma fold_left_snoc {A : Type} (l : list A) : forall acc,
  fold_left (fun acc x => acc ++ [x]) l acc = acc ++ l.
Proof.
  induction l as [| x l IH]; intro acc; simpl.
  - now rewrite app_nil_r.
  - now rewrite IH, <- app_assoc.
Qed.

(** X6.  The parameters of a function entity are the names in
    [node.args.args], in order: positional-only and keyword-only
    parameters, [*args] and [**kwargs] are not recorded. *)
Theorem params_positional_only :
  forall cleandoc is_async name posonly node_params var kwonly kw dflts body
         decorator_list lineno end_lineno source_code parent_class,
  fn_params (extract_function cleandoc is_async name
               (mk_arguments posonly node_params var kwonly kw dflts) body
               decorator_list lineno end_lineno source_code parent_class)
  = node_params.
Proof.
  intros. unfold extract_function. cbn [fn_params args].
  apply (fold_left_snoc node_params []).
Qed.

Section Headers.

Variable cleandoc : string -> string.
Variable source_code : string.

(** X4.  The entities of a file are its top-level class and function
    definitions in source order, each with the type, name, first and last
    line of its statement; a function entity is flagged asynchronous
    exactly for an [async def]. *)
Theorem entity_headers :
  forall tree_body,
  map entity_header (extract_entities cleandoc tree_body source_code)
  = flat_map definition_header tree_body.
Proof.
  intro tree_body. rewrite extract_entities_flat_map.
  induction tree_body as [| node rest IH]; [reflexivity |].
  cbn [flat_map]. rewrite map_app, IH. f_equal.
  now destruct node.
Qed.

(** X5.  In a class entity, [method_count] is the number of methods, which
    is the number of function definitions directly in the class body; the
    methods come in body order with the headers of their statements; each
    has the class name as [parent_class]; and for a class with a non-empty
    name none has the kind "function". *)
Theorem class_methods_owned :
  forall name node_bases body decorator_list lineno end_lineno,
  let c := extract_class cleandoc name node_bases body decorator_list lineno
             end_lineno source_code in
  cls_method_count c = length (cls_methods c) /\
  length (cls_methods c) = length (filter is_function_def body) /\
  map function_header (cls_methods c)
  = flat_map definition_header (filter is_function_def body) /\
  Forall (fun m => fn_parent_class m = Some name) (cls_methods c) /\
  (name <> "" -> Forall (fun m => fn_kind m <> "function") (cls_methods c)).
Proof.
  intros. subst c. unfold extract_class.
  cbn [cls_method_count cls_methods].
  rewrite collect_methods_flat_map.
  split; [reflexivity |].
  split; [apply method_count_direct |].
  split; [| split].
  - induction body as [| item rest IH]; [reflexivity |].
    cbn [flat_map filter]. rewrite map_app, IH.
    destruct item; reflexivity.
  - induction body as [| item rest IH]; [constructor |].
    cbn [flat_map]. apply Forall_app. split; [| exact IH].
    destruct item; repeat constructor.
  - intro Hname. pose proof (truthy_nonempty name Hname) as Ht.
    induction body as [| item rest IH]; [constructor |].
    cbn [flat_map]. apply Forall_app. split; [| exact IH].
    destruct item; simpl; repeat constructor;
      unfold extract_function; cbn [fn_kind]; rewrite Ht;
      match goal with
      | |- context [?n =? "__init__"] =>
          destruct (n =? "__init__"); [discriminate |];
          destruct (String.prefix "_" n); discriminate
      end.
Qed.

End Headers.

Lemma class_methods_owned_witness :
  map fn_kind
    (cls_methods
       (extract_class (fun s => s) "Invoice" []
          [FunctionDef "__init__" self_args [Pass 3] [] 2 3;
           Pass 4;
           AsyncFunctionDef "_sync" self_args [Pass 6] [] 5 6] [] 1 6 ""))
  = ["constructor"; "private_method"] /\
  Forall (fun m => fn_kind m <> "function")
    (cls_methods
       (extract_class (fun s => s) "Invoice" []
          [FunctionDef "__init__" self_args [Pass 3] [] 2 3;
           Pass 4;
           AsyncFunctionDef "_sync" self_args [Pass 6] [] 5 6] [] 1 6 "")).
Proof.
  split; [reflexivity |].
  apply (class_methods_owned (fun s => s) "" "Invoice" []
           [FunctionDef "__init__" self_args [Pass 3] [] 2 3;
            Pass 4;
            AsyncFunctionDef "_sync" self_args [Pass 6] [] 5 6] [] 1 6).
  discriminate.
Defined.

(** ** The catalog as a dictionary *)

Lemma dict_set_keys {V : Type} (d : dict V) (k : string) (v : V) (x : string) :
  In x (map fst (dict_set d k v)) -> x = k \/ In x (map fst d).
Proof.
  induction d as [| [k' v'] d IH]; simpl.
  - intros [<- | []]. now left.
  - destruct (k' =? k); simpl; intros [<- | H]; auto.
    destruct (IH H); auto.
Qed.

Lemma dict_set_NoDup {V : Type} (d : dict V) (k : string) (v : V) :
  NoDup (map fst d) -> NoDup (map fst (dict_set d k v)).
Proof.
  induction d as [| [k' v'] d IH]; simpl; intro H.
  - repeat constructor. intros [].
  - inversion H as [| ? ? Hnotin Hd]; subst.
    destruct (String.eqb_spec k' k); simpl; [exact H |].
    constructor; [| now apply IH].
    intro Hin. apply dict_set_keys in Hin. destruct Hin; congruence.
Qed.

Lemma dict_set_Forall {V : Type} (P : string * V -> Prop) (d : dict V)
    (k : string) (v : V) :
  (forall k', P (k', v)) -> Forall P d -> Forall P (dict_set d k v).
Proof.
  intros Hv. induction 1 as [| [k' v'] d Hx Hd IH]; simpl.
  - repeat constructor. apply Hv.
  - destruct (k' =? k); constructor; auto.
Qed.

Lemma dict_get_set_same {V : Type} (d : dict V) (k : string) (v : V) :
  dict_get (dict_set d k v) k = Some v.
Proof.
  induction d as [| [k' v'] d IH]; simpl.
  - now rewrite String.eqb_refl.
  - destruct (k' =? k) eqn:E; simpl; now rewrite E.
Qed.

Lemma dict_get_set_other {V : Type} (d : dict V) (k k' : string) (v : V) :
  k <> k' -> dict_get (dict_set d k v) k' = dict_get d k'.
Proof.
  intro Hne. induction d as [| [k0 v0] d IH]; simpl.
  - destruct (String.eqb_spec k k'); congruence.
  - destruct (String.eqb_spec k0 k); simpl.
    + subst k0. destruct (String.eqb_spec k k'); congruence.
    + now rewrite IH.
Qed.

Section CatalogDictionary.

Variable cleandoc : string -> string.
Variable read_text : string -> result string.
Variable parse : string -> result (list stmt).
Variable is_file : string -> bool.
Variables suffix parent : string -> string.
Variable rglob_py : string -> list string.
Variable relative_to : string -> string -> result string.

Let from_file := extract_entities_from_file cleandoc read_text parse.
Let process := process_file cleandoc read_text parse parent relative_to.
Let loop := catalog_loop cleandoc read_text parse parent relative_to.
Let from_directory :=
  extract_entities_from_directory cleandoc read_text parse is_file suffix
    parent rglob_py relative_to.
Let candidates := python_files_of is_file suffix rglob_py.

(** What one file can do to the catalog. *)
Lemma process_file_cases (path file_path : string) (c c' : catalog) :
  process path file_path c = Ok c' ->
  c' = c \/
  exists relative_path entities,
    entities <> [] /\
    from_file file_path = Ok entities /\
    relative_to file_path (parent path) = Ok relative_path /\
    c' = dict_set c relative_path entities.
Proof.
  subst process from_file. unfold process_file, try_body.
  destruct (extract_entities_from_file _ _ _ file_path) as [ents | e];
    simpl.
  - destruct ents as [| ent ents]; simpl.
    + intros [= <-]. now left.
    + destruct (relative_to file_path (parent path)) as [r | e]; simpl.
      * intros [= <-]. right. exists r, (ent :: ents).
        repeat split. discriminate.
      * destruct (is_Exception e); intros [= <-]. now left.
  - destruct (is_Exception e); intros [= <-]. now left.
Qed.

Lemma catalog_loop_ok (path : string) (python_files : list string) :
  forall c cat,
  loop path python_files c = Ok cat -> catalog_ok c -> catalog_ok cat.
Proof.
  subst loop.
  induction python_files as [| f rest IH]; intros c cat; simpl.
  - now intros [= <-].
  - destruct (process_file cleandoc read_text parse parent relative_to
                path f c) as [c' |] eqn:Ep; simpl; [| discriminate].
    intros Hl Hc. apply (IH c' cat Hl).
    destruct (process_file_cases path f c c' Ep)
      as [-> | [r [ents [Hne [_ [_ ->]]]]]]; [exact Hc |].
    destruct Hc as [Hnd Hall]. split.
    + now apply dict_set_NoDup.
    + apply dict_set_Forall; [intro; exact Hne | exact Hall].
Qed.

(** X7.  Every catalog the builder returns has pairwise distinct paths and
    no path with an empty entity list: a file without a top-level class or
    function is left out. *)
Theorem catalog_well_formed :
  forall path cat,
  from_directory path = Ok cat ->
  NoDup (map fst cat) /\ Forall (fun kv => snd kv <> []) cat.
Proof.
  intros path cat H.
  apply (catalog_loop_ok path (candidates path) [] cat H).
  split; constructor.
Qed.

Lemma catalog_loop_keeps (path relative_path : string)
    (python_files : list string) :
  (forall g, In g python_files ->
     relative_to g (parent path) <> Ok relative_path) ->
  forall c cat,
  loop path python_files c = Ok cat ->
  dict_get cat relative_path = dict_get c relative_path.
Proof.
  subst loop. intro Hother.
  induction python_files as [| f rest IH]; intros c cat; simpl.
  - now intros [= <-].
  - destruct (process_file cleandoc read_text parse parent relative_to
                path f c) as [c' |] eqn:Ep; simpl; [| discriminate].
    intro Hl. rewrite (IH (fun g Hg => Hother g (or_intror Hg)) c' cat Hl).
    destruct (process_file_cases path f c c' Ep)
      as [-> | [r [ents [_ [_ [Hr ->]]]]]]; [reflexivity |].
    apply dict_get_set_other. intros ->.
    exact (Hother f (or_introl eq_refl) Hr).
Qed.

(** X8.  Looking a file up in the catalog by its relative path gives the
    entities of that file, provided the file has some and no candidate
    after it has the same relative path. *)
Theorem catalog_lookup :
  forall path l1 file_path l2 entities relative_path cat,
  candidates path = l1 ++ file_path :: l2 ->
  from_file file_path = Ok entities ->
  entities <> [] ->
  relative_to file_path (parent path) = Ok relative_path ->
  (forall g, In g l2 -> relative_to g (parent path) <> Ok relative_path) ->
  from_directory path = Ok cat ->
  dict_get cat relative_path = Some entities.
Proof.
  intros path l1 f l2 ents r cat Hc Hf Hne Hr Hother.
  pose proof (catalog_loop_keeps path r l2 Hother) as Hkeep.
  subst from_directory loop process from_file candidates.
  unfold extract_entities_from_directory. rewrite Hc.
  rewrite catalog_loop_app.
  destruct (catalog_loop _ _ _ _ _ path l1 []) as [c1 |]; simpl;
    [| discriminate].
  rewrite (process_file_success _ _ _ _ _ _ _ _ _ _ Hf Hr).
  destruct ents as [| ent ents]; [contradiction |]. simpl.
  intro Hl. rewrite (Hkeep _ _ Hl).
  apply dict_get_set_same.
Qed.

(** X9.  Given a single file, the builder looks at that file alone, and
    only when its suffix is ".py": any other file gives the empty catalog
    without being read, and a ".py" file with entities gives the catalog of
    that one file under its path relative to its parent directory. *)
Theorem single_file_input :
  forall path,
  is_file path = true ->
  (suffix path <> ".py" -> from_directory path = Ok []) /\
  (forall entities relative_path,
     suffix path = ".py" ->
     from_file path = Ok entities ->
     entities <> [] ->
     relative_to path (parent path) = Ok relative_path ->
     from_directory path = Ok [(relative_path, entities)]).
Proof.
  intros path Hfile. subst from_directory loop process from_file candidates.
  unfold extract_entities_from_directory, python_files_of. rewrite Hfile.
  split.
  - intro Hs. destruct (String.eqb_spec (suffix path) ".py");
      [contradiction | reflexivity].
  - intros ents r Hs Hf Hne Hr. rewrite Hs. simpl.
    rewrite (process_file_success _ _ _ _ _ _ _ _ _ _ Hf Hr).
    now destruct ents.
Qed.

(** X10.  What does not derive from [Exception] is not caught: when reading
    or parsing a candidate raises such an exception, the run ends with it
    and returns no catalog, whatever the files before it gave. *)
Theorem interrupt_propagates :
  forall path l1 bad l2 e c,
  candidates path = l1 ++ bad :: l2 ->
  loop path l1 [] = Ok c ->
  from_file bad = Raise e ->
  is_Exception e = false ->
  from_directory path = Raise e.
Proof.
  intros path l1 bad l2 e c Hc Hl Hbad He.
  subst from_directory loop process from_file candidates.
  unfold extract_entities_from_directory. rewrite Hc.
  rewrite catalog_loop_app, Hl. simpl.
  unfold process_file, try_body. rewrite Hbad. simpl.
  now rewrite He.
Qed.

End CatalogDictionary.

Lemma catalog_well_formed_witness :
  exists cat,
    sample_directory "proj" = Ok cat /\
    NoDup (map fst cat) /\ Forall (fun kv => snd kv <> []) cat.
Proof.
  eexists. split; [reflexivity |].
  apply (catalog_well_formed (fun s => s) sample_read_text sample_parse
           (fun _ => false) (fun _ => "") (fun _ => "") sample_rglob
           sample_relative_to "proj" _ eq_refl).
Defined.

Lemma catalog_lookup_witness :
  exists cat,
    sample_directory "proj" = Ok cat /\
    dict_get cat "proj/c.py"
    = Some [EClass (extract_class (fun s => s) "C" [] [Pass 1] [] 1 1
                      "class C: pass")].
Proof.
  eexists. split; [reflexivity |].
  apply (catalog_lookup (fun s => s) sample_read_text sample_parse
           (fun _ => false) (fun _ => "") (fun _ => "") sample_rglob
           sample_relative_to "proj" ["proj/a.py"; "proj/bad.py"] "proj/c.py"
           [] _ "proj/c.py" _ eq_refl eq_refl);
    [discriminate | reflexivity | intros g [] | reflexivity].
Defined.

Lemma single_file_input_witness :
  extract_entities_from_directory (fun s => s) sample_read_text sample_parse
    (fun _ => true) (fun _ => ".txt") (fun _ => "") sample_rglob
    sample_relative_to "proj/notes.txt" = Ok [].
Proof.
  apply (proj1 (single_file_input (fun s => s) sample_read_text sample_parse
                  (fun _ => true) (fun _ => ".txt") (fun _ => "")
                  sample_rglob sample_relative_to "proj/notes.txt" eq_refl)).
  discriminate.
Defined.

Lemma interrupt_propagates_witness :
  extract_entities_from_directory (fun s => s) interrupted_read_text
    sample_parse (fun _ => false) (fun _ => "") (fun _ => "") sample_rglob
    sample_relative_to "proj" = Raise KeyboardInterrupt.
Proof.
  apply (interrupt_propagates (fun s => s) interrupted_read_text sample_parse
           (fun _ => false) (fun _ => "") (fun _ => "") sample_rglob
           sample_relative_to "proj" ["proj/a.py"] "proj/bad.py"
           ["proj/c.py"] KeyboardInterrupt _ eq_refl eq_refl eq_refl eq_refl).
Defined.

Section DiscoveryRun.

Variable cleandoc : string -> string.
Variable read_text : string -> result string.
Variable parse : string -> result (list stmt).
Variable is_file : string -> result bool.
Variables suffix parent : string -> string.
Variable rglob_py : string -> result (list string).
Variable relative_to : string -> string -> result string.

Let discover := Discovery.python_files is_file suffix rglob_py.
Let run :=
  Discovery.extract_entities_from_directory cleandoc read_text parse is_file
    suffix parent rglob_py relative_to.

(** X11.  The candidate discovery runs before the [try]: when [is_file] or
    the directory walk raises, the run ends with that exception, also when
    it derives from [Exception].  Once the discovery has returned the
    candidates, and when reading, parsing and path computation raise
    nothing but [Exception]s, the run returns a catalog whatever the files
    hold.  With a discovery that returns, the run is the run of the
    catalog builder on the answers of the discovery. *)
Theorem builder_returns :
  (forall path e, discover path = Raise e -> run path = Raise e) /\
  ((forall file_path e,
      read_text file_path = Raise e -> is_Exception e = true) ->
   (forall source_code e,
      parse source_code = Raise e -> is_Exception e = true) ->
   (forall file_path base e,
      relative_to file_path base = Raise e -> is_Exception e = true) ->
   forall path python_files,
   discover path = Ok python_files ->
   exists cat, run path = Ok cat) /\
  (forall is_file' rglob_py' path,
     is_file path = Ok (is_file' path) ->
     (is_file' path = false -> rglob_py path = Ok (rglob_py' path)) ->
     run path
     = Extractor.extract_entities_from_directory cleandoc read_text parse
         is_file' suffix parent rglob_py' relative_to path).
Proof.
  subst discover run. unfold Discovery.extract_entities_from_directory.
  split; [| split].
  - intros path e ->. reflexivity.
  - intros Hread Hparse Hrel path python_files ->. simpl.
    exact (catalog_loop_returns cleandoc read_text parse parent relative_to
             path python_files Hread Hparse Hrel []).
  - intros is_file' rglob_py' path Hfile Hglob.
    unfold Extractor.extract_entities_from_directory, python_files_of,
      Discovery.python_files.
    rewrite Hfile. simpl.
    destruct (is_file' path); [reflexivity |].
    now rewrite (Hglob eq_refl).
Qed.

End DiscoveryRun.

Lemma builder_returns_witness :
  (exists cat,
     Discovery.extract_entities_from_directory (fun s => s) sample_read_text
       sample_parse (fun _ => Ok false) (fun _ => "") (fun _ => "")
       (fun path => Ok (sample_rglob path)) sample_relative_to "proj"
     = Ok cat) /\
  Discovery.extract_entities_from_directory (fun s => s) sample_read_text
    sample_parse denied_is_file (fun _ => "") (fun _ => "")
    (fun path => Ok (sample_rglob path)) sample_relative_to "locked"
  = Raise (OSError "Permission denied").
Proof.
  split.
  - apply (proj1 (proj2 (builder_returns (fun s => s) sample_read_text
                           sample_parse (fun _ => Ok false) (fun _ => "")
                           (fun _ => "") (fun path => Ok (sample_rglob path))
                           sample_relative_to))
             ) with (python_files := sample_rglob "proj").
    + intros f e. unfold sample_read_text.
      repeat match goal with
             | |- context [if ?b then _ else _] => destruct b
             end; intros [= <-]; reflexivity.
    + intros src e. unfold sample_parse.
      repeat match goal with
             | |- context [if ?b then _ else _] => destruct b
             end; intros [= <-]; reflexivity.
    + intros f base e. discriminate.
    + reflexivity.
  - apply (proj1 (builder_returns (fun s => s) sample_read_text sample_parse
                    denied_is_file (fun _ => "") (fun _ => "")
                    (fun path => Ok (sample_rglob path)) sample_relative_to)).
    reflexivity.
Defined.

(** * Further properties of the node visitor *)

Lemma set_add_In (s : list string) (x m : string) :
  In m (set_add s x) <-> In m s \/ m = x.
Proof.
  unfold set_add. destruct (existsb (String.eqb x) s) eqn:E.
  - split; [auto | intros [H | ->]; [exact H |]].
    apply existsb_exists in E. destruct E as [y [Hy Heq]].
    apply String.eqb_eq in Heq. now subst.
  - rewrite in_app_iff. simpl. intuition.
Qed.

Lemma set_add_NoDup (s : list string) (x : string) :
  NoDup s -> NoDup (set_add s x).
Proof.
  intro H. unfold set_add. destruct (existsb (String.eqb x) s) eqn:E;
    [exact H |].
  apply NoDup_app; [exact H | repeat constructor; intros [] |].
  intros y Hy [Heq | []]. subst y.
  assert (Hex : existsb (String.eqb x) s = true)
    by (apply existsb_exists; exists x; split;
        [exact Hy | apply String.eqb_refl]).
  congruence.
Qed.

Lemma set_add_all (l : list string) : forall s,
  (NoDup s -> NoDup (fold_left set_add l s)) /\
  (forall m, In m (fold_left set_add l s) <-> In m s \/ In m l) /\
  (exists new, fold_left set_add l s = s ++ new).
Proof.
  induction l as [| x l IH]; intro s; simpl.
  - split; [auto |]. split; [intuition |]. exists []. now rewrite app_nil_r.
  - destruct (IH (set_add s x)) as [Hnd [Hin [new Hnew]]].
    split; [intro H; apply Hnd; now apply set_add_NoDup |].
    split.
    + intro m. rewrite Hin, set_add_In. intuition.
    + rewrite Hnew. unfold set_add.
      destruct (existsb (String.eqb x) s); [now exists new |].
      exists ([x] ++ new). now rewrite app_assoc.
Qed.

Lemma visit_list_bookkeeping (l : list stmt) :
  Forall visit_bookkeeping l ->
  forall self,
    dependencies (fold_left (fun s n => visit n s) l self)
    = fold_left set_add (flat_map imported_module (flat_map descendants l))
        (dependencies self) /\
    current_function (fold_left (fun s n => visit n s) l self)
    = if existsb is_sync_def (flat_map descendants l)
      then None else current_function self.
Proof.
  induction 1 as [| node l Hn _ IH]; intro self; simpl; [now split |].
  destruct (IH (visit node self)) as [Hd Hc].
  destruct (Hn self) as [Hd' Hc'].
  rewrite Hd, Hc, Hd', Hc'.
  rewrite flat_map_app, fold_left_app, existsb_app. split; [reflexivity |].
  destruct (existsb is_sync_def (descendants node));
    destruct (existsb is_sync_def (flat_map descendants l)); reflexivity.
Qed.

Lemma visit_all_bookkeeping : forall node, visit_bookkeeping node.
Proof.
  apply stmt_children_ind. intros node Hc self.
  rewrite descendants_children.
  pose proof (generic_visit_children node self) as Hg.
  pose proof (visit_list_bookkeeping _ Hc) as Hl.
  destruct node;
    try (rewrite Hg; destruct (Hl self) as [Hd Hf]; rewrite Hd, Hf;
         split; reflexivity).
  - (* FunctionDef *)
    simpl children in *. cbn [visit].
    cbn [flat_map imported_module existsb is_sync_def app orb].
    set (self1 := if name =? "on_submit" then _ else _).
    destruct (Hl self1) as [Hd _].
    cbn [dependencies current_function set_current_function].
    rewrite Hd. subst self1.
    destruct (name =? "on_submit"); [rewrite analyze_on_submit_spec |];
      split; reflexivity.
  - (* ImportFrom *)
    simpl. destruct module as [m |]; [destruct (truthy m) |];
      split; reflexivity.
Qed.

Lemma all_visits_bookkeeping (l : list stmt) : Forall visit_bookkeeping l.
Proof. apply Forall_forall. intros. apply visit_all_bookkeeping. Qed.

Lemma all_visits_effect (l : list stmt) : Forall visit_effect l.
Proof. apply Forall_forall. intros. apply visit_all_effect. Qed.

(** X12.  After a run over a module, the dependencies are, without
    repetition, exactly the modules named by the [from ... import]
    statements of the tree at any depth; a relative import without a module
    name and a plain [import] statement add nothing. *)
Theorem dependencies_are_imports :
  forall tree_body,
  let deps := dependencies (visit_module tree_body init) in
  NoDup deps /\
  (forall m, In m deps <-> In m (imported_modules tree_body)) /\
  (forall l1 names lineno l2,
     tree_body = l1 ++ Import names lineno :: l2 ->
     deps = dependencies (visit_module (l1 ++ l2) init)) /\
  (forall l1 names level lineno l2,
     tree_body = l1 ++ ImportFrom None names level lineno :: l2 ->
     deps = dependencies (visit_module (l1 ++ l2) init)).
Proof.
  intros tree_body deps. subst deps. unfold visit_module, imported_modules.
  destruct (visit_list_bookkeeping _ (all_visits_bookkeeping tree_body) init)
    as [Hd _].
  rewrite Hd. simpl dependencies.
  destruct (set_add_all
              (flat_map imported_module (flat_map descendants tree_body)) [])
    as [Hnd [Hin _]].
  split; [apply Hnd; constructor |].
  split; [intro m; rewrite Hin; simpl; intuition |].
  split.
  - intros l1 names lineno l2 ->.
    destruct (visit_list_bookkeeping _ (all_visits_bookkeeping (l1 ++ l2))
                init) as [Hd' _].
    rewrite Hd'. now rewrite !flat_map_app.
  - intros l1 names level lineno l2 ->.
    destruct (visit_list_bookkeeping _ (all_visits_bookkeeping (l1 ++ l2))
                init) as [Hd' _].
    rewrite Hd'. now rewrite !flat_map_app.
Qed.

Lemma dependencies_are_imports_witness :
  dependencies (visit_module imports_module init)
  = dependencies (visit_module (tl imports_module) init) /\
  In "frappe" (dependencies (visit_module imports_module init)) /\
  In "erpnext.stock" (dependencies (visit_module imports_module init)) /\
  length (dependencies (visit_module imports_module init)) = 2.
Proof.
  destruct (dependencies_are_imports imports_module) as [_ [Hin [Hi _]]].
  split; [exact (Hi [] ["json"] 1%Z (tl imports_module) eq_refl) |].
  split; [apply Hin; simpl; tauto |].
  split; [apply Hin; simpl; tauto | reflexivity].
Defined.

(** X13.  A run leaves [current_function] as [None] as soon as the tree
    holds a synchronous function definition at any depth, and as it was
    otherwise: after a nested definition the name of the enclosing function
    is not restored. *)
Theorem current_function_reset :
  forall tree_body self,
  current_function (visit_module tree_body self)
  = if existsb is_sync_def (flat_map descendants tree_body)
    then None else current_function self.
Proof.
  intros tree_body self. unfold visit_module.
  now destruct (visit_list_bookkeeping _ (all_visits_bookkeeping tree_body)
                  self) as [_ Hc].
Qed.

(** X14.  A tree without a synchronous definition named "on_submit" gives
    no business rule, whatever calls it makes; the function definitions are
    counted all the same. *)
Theorem no_hook_no_rules :
  forall tree_body,
  Forall not_hook (flat_map descendants tree_body) ->
  business_rules (visit_module tree_body init) = [] /\
  methods_found (visit_module tree_body init)
  = length (filter is_sync_def (flat_map descendants tree_body)).
Proof.
  intros tree_body Hno. unfold visit_module.
  destruct (visit_list_effect _ (all_visits_effect tree_body) init)
    as [Hm Hb].
  rewrite Hm, Hb. split; [| reflexivity]. simpl.
  clear Hm Hb.
  induction Hno as [| node l Hn _ IH]; [reflexivity |].
  cbn [flat_map]. rewrite IH, app_nil_r.
  destruct node; try reflexivity. simpl in *.
  destruct (String.eqb_spec name "on_submit"); [contradiction | reflexivity].
Qed.

Lemma no_hook_no_rules_witness :
  business_rules (visit_module imports_module init) = [] /\
  methods_found (visit_module imports_module init) = 1.
Proof.
  destruct (no_hook_no_rules imports_module) as [Hb Hm].
  - repeat constructor; discriminate.
  - split; [exact Hb | rewrite Hm; reflexivity].
Defined.

(** X15.  Running over two module bodies in sequence adds up: the count of
    the concatenation is the sum of the counts, its records are the records
    of the first followed by those of the second, and its dependencies are
    those of either. *)
Theorem visit_module_app :
  forall l1 l2,
  methods_found (visit_module (l1 ++ l2) init)
  = methods_found (visit_module l1 init)
    + methods_found (visit_module l2 init) /\
  business_rules (visit_module (l1 ++ l2) init)
  = business_rules (visit_module l1 init)
    ++ business_rules (visit_module l2 init) /\
  (forall m,
     In m (dependencies (visit_module (l1 ++ l2) init)) <->
     In m (dependencies (visit_module l1 init)) \/
     In m (dependencies (visit_module l2 init))).
Proof.
  intros l1 l2. unfold visit_module.
  destruct (visit_list_effect _ (all_visits_effect (l1 ++ l2)) init)
    as [Hm Hb].
  destruct (visit_list_effect _ (all_visits_effect l1) init) as [Hm1 Hb1].
  destruct (visit_list_effect _ (all_visits_effect l2) init) as [Hm2 Hb2].
  destruct (visit_list_bookkeeping _ (all_visits_bookkeeping (l1 ++ l2)) init)
    as [Hd _].
  destruct (visit_list_bookkeeping _ (all_visits_bookkeeping l1) init)
    as [Hd1 _].
  destruct (visit_list_bookkeeping _ (all_visits_bookkeeping l2) init)
    as [Hd2 _].
  rewrite Hm, Hb, Hm1, Hb1, Hm2, Hb2, Hd, Hd1, Hd2. simpl.
  rewrite !flat_map_app, filter_app, length_app.
  split; [reflexivity |]. split; [reflexivity |].
  intro m.
  rewrite (proj1 (proj2 (set_add_all _ _)) m).
  rewrite (proj1 (proj2 (set_add_all _ _)) m).
  rewrite (proj1 (proj2 (set_add_all _ _)) m).
  rewrite in_app_iff. simpl. intuition.
Qed.

(** X16.  Visiting a statement only adds to the statistics: the counter
    does not decrease, the records already there stay in front in their
    order, and every dependency already there is still there, the
    dependencies staying free of repetition. *)
Theorem stats_append_only :
  forall node self,
  methods_found self <= methods_found (visit node self) /\
  (exists new,
     business_rules (visit node self) = business_rules self ++ new) /\
  (forall m,
     In m (dependencies self) -> In m (dependencies (visit node self))) /\
  (NoDup (dependencies self) -> NoDup (dependencies (visit node self))).
Proof.
  intros node self.
  destruct (visit_all_effect node self) as [Hm Hb].
  destruct (visit_all_bookkeeping node self) as [Hd _].
  rewrite Hm, Hb, Hd. split; [lia |]. split; [eauto |].
  destruct (set_add_all (flat_map imported_module (descendants node))
              (dependencies self)) as [Hnd [Hin _]].
  split; [| exact Hnd].
  intros m Hm'. apply Hin. now left.
Qed.

Lemma stats_append_only_witness :
  NoDup (dependencies
           (visit (ImportFrom (Some "frappe") ["_"] 0 2) init)) /\
  In "frappe"
    (dependencies
       (visit (ImportFrom (Some "frappe") ["throw"] 0 6)
          (visit (ImportFrom (Some "frappe") ["_"] 0 2) init))).
Proof.
  split.
  - apply (proj2 (proj2 (proj2
             (stats_append_only (ImportFrom (Some "frappe") ["_"] 0 2)
                init)))).
    constructor.
  - apply (proj1 (proj2 (proj2
             (stats_append_only (ImportFrom (Some "frappe") ["throw"] 0 6)
                (visit (ImportFrom (Some "frappe") ["_"] 0 2) init))))).
    simpl. now left.
Defined.

(** * Further properties of the document flattener *)

Lemma for_each_app {A S : Type} (body : S -> A -> result S) (l1 l2 : list A) :
  forall s,
  for_each body (l1 ++ l2) s
  = (s' <- for_each body l1 s ;; for_each body l2 s').
Proof.
  induction l1 as [| x l1 IH]; intro s; simpl; [reflexivity |].
  destruct (body s x); simpl; [apply IH | reflexivity].
Qed.

Lemma for_each_invariant {A S : Type} (P : S -> Prop)
    (body : S -> A -> result S) :
  (forall s x s', P s -> body s x = Ok s' -> P s') ->
  forall l s s', P s -> for_each body l s = Ok s' -> P s'.
Proof.
  intros Hbody l. induction l as [| x l IH]; intros s s' Hs; simpl.
  - now intros [= <-].
  - destruct (body s x) as [s1 |] eqn:E; simpl; [| discriminate].
    apply IH. exact (Hbody s x s1 Hs E).
Qed.

Lemma flatten_length (c : dict (list sourced_entity)) :
  length (flatten c) = document_count c.
Proof.
  unfold flatten, document_count.
  induction c as [| [file entities] c IH]; [reflexivity |].
  cbn [flat_map map]. rewrite length_app, IH.
  change (list_sum (?a :: ?l)) with (a + list_sum l). f_equal. simpl.
  induction entities as [| e entities IHe]; [reflexivity |].
  cbn [flat_map map]. rewrite length_app, IHe.
  change (list_sum (?a :: ?l)) with (a + list_sum l). f_equal.
  destruct e; simpl; [now rewrite length_map | reflexivity].
Qed.

Lemma flatten_app (c1 c2 : dict (list sourced_entity)) :
  flatten (c1 ++ c2) = flatten c1 ++ flatten c2.
Proof. unfold flatten. apply flat_map_app. Qed.

(** X17.  On a catalog whose entities and methods carry [source_code], the
    flattener returns the documents in catalog-file order and, within a
    file, source order: for a class its document and then one document per
    method in method order, for a function its document; the documents of
    two catalogs put one after the other are the documents of the first
    followed by those of the second. *)
Theorem flattener_on_sourced_catalog :
  forall c1 c2,
  build_documents (json_of_sourced_catalog c1) = Ok (flatten c1) /\
  build_documents (json_of_sourced_catalog (c1 ++ c2))
  = Ok (flatten c1 ++ flatten c2).
Proof.
  intros c1 c2. rewrite !build_documents_sourced, flatten_app. now split.
Qed.

(** X18.  On a catalog whose entities carry their source text the
    flattener returns as many documents as the catalog has classes,
    methods and top-level functions together. *)
Theorem document_count_sourced :
  forall c,
  exists docs,
    build_documents (json_of_sourced_catalog c) = Ok docs /\
    length docs = document_count c.
Proof.
  intro c. exists (flatten c).
  split; [apply build_documents_sourced | apply flatten_length].
Qed.

Lemma append_method_tagged (file : string) (ent m : json)
    (docs docs' : list document) :
  Forall well_tagged docs ->
  append_method file ent docs m = Ok docs' ->
  Forall well_tagged docs'.
Proof.
  intro H. unfold append_method.
  destruct (getitem m "source_code"); simpl; [| discriminate].
  destruct (getitem ent "name"); simpl; [| discriminate].
  destruct (getitem m "name"); simpl; [| discriminate].
  intros [= <-]. apply Forall_app. split; [exact H |].
  constructor; [| constructor].
  right. right. simpl. split; [reflexivity | discriminate].
Qed.

Lemma append_entity_tagged (file : string) (ent : json)
    (docs docs' : list document) :
  Forall well_tagged docs ->
  append_entity file docs ent = Ok docs' ->
  Forall well_tagged docs'.
Proof.
  intro H. unfold append_entity.
  destruct (getitem ent "type") as [ty |]; simpl; [| discriminate].
  destruct (eq_str ty "class").
  - destruct (getitem ent "source_code"); simpl; [| discriminate].
    destruct (getitem ent "name"); simpl; [| discriminate].
    destruct (getitem ent "methods") as [ms |]; simpl; [| discriminate].
    destruct (iterate ms) as [l |]; simpl; [| discriminate].
    apply (for_each_invariant (Forall well_tagged)).
    + intros s x s' Hs. now apply append_method_tagged.
    + apply Forall_app. split; [exact H |].
      constructor; [| constructor]. left. now split.
  - destruct (getitem ent "source_code"); simpl; [| discriminate].
    destruct (getitem ent "name"); simpl; [| discriminate].
    intros [= <-]. apply Forall_app. split; [exact H |].
    constructor; [| constructor]. right. left. now split.
Qed.

(** X20.  Whatever value the catalog file holds, when the flattener
    returns, every document has the type "class", "function" or "method",
    and has a [class] entry exactly when it is a method. *)
Theorem documents_well_tagged :
  forall data docs,
  build_documents data = Ok docs -> Forall well_tagged docs.
Proof.
  intros data docs. unfold build_documents.
  destruct (items data) as [file_items |]; simpl; [| discriminate].
  apply (for_each_invariant (Forall well_tagged)); [| constructor].
  intros s [file entities] s' Hs. unfold append_file.
  destruct (iterate entities) as [ents |]; simpl; [| discriminate].
  apply (for_each_invariant (Forall well_tagged)); [| exact Hs].
  intros s0 x s0' Hs0. now apply append_entity_tagged.
Qed.

Lemma documents_well_tagged_witness :
  Forall well_tagged (flatten sample_sourced_catalog).
Proof.
  apply (documents_well_tagged
           (json_of_sourced_catalog sample_sourced_catalog)).
  reflexivity.
Defined.

(** X21.  A file whose entity list is empty adds no document, wherever it
    stands in the catalog, and a catalog value that is not a dictionary
    makes the flattener raise [AttributeError]. *)
Theorem flattener_edge_inputs :
  (forall d1 file d2,
     build_documents (JDict (d1 ++ (file, JList []) :: d2))
     = build_documents (JDict (d1 ++ d2))) /\
  (forall data,
     (forall d, data <> JDict d) ->
     exists msg, build_documents data = Raise (AttributeError msg)).
Proof.
  split.
  - intros d1 file d2. unfold build_documents. simpl.
    rewrite !for_each_app.
    destruct (for_each append_file d1 []); reflexivity.
  - intros data Hd. destruct data; try (eexists; reflexivity).
    now destruct (Hd d).
Qed.

Lemma flattener_edge_inputs_witness :
  exists msg, build_documents (JList []) = Raise (AttributeError msg).
Proof.
  apply (proj2 flattener_edge_inputs). discriminate.
Defined.

Section ExtractedCatalog.

Variable cleandoc : string -> string.
Variable read_text : string -> result string.
Variable parse : string -> result (list stmt).
Variable is_file : string -> bool.
Variables suffix parent : string -> string.
Variable rglob_py : string -> list string.
Variable relative_to : string -> string -> result string.

(** X19.  The flattener cannot use what the catalog builder produces: on
    the catalog of any run it raises [KeyError('source_code')], unless the
    catalog is empty, in which case it returns no document. *)
Theorem extracted_catalog_not_flattened :
  forall path cat,
  extract_entities_from_directory cleandoc read_text parse is_file suffix
    parent rglob_py relative_to path = Ok cat ->
  build_documents (json_of_catalog cat)
  = match cat with
    | [] => Ok []
    | _ :: _ => Raise (KeyError "source_code")
    end.
Proof.
  intros path cat H.
  pose proof (catalog_loop_ok cleandoc read_text parse parent relative_to
                path _ [] cat H) as Hok.
  destruct Hok as [_ Hall]; [split; constructor |].
  destruct cat as [| [file entities] rest]; [reflexivity |].
  inversion Hall as [| ? ? Hne _]; subst. simpl in Hne.
  destruct entities as [| e entities]; [contradiction |].
  apply build_documents_extracted.
Qed.

End ExtractedCatalog.

Lemma extracted_catalog_not_flattened_witness :
  exists cat,
    sample_directory "proj" = Ok cat /\
    build_documents (json_of_catalog cat) = Raise (KeyError "source_code").
Proof.
  eexists. split; [reflexivity |].
  apply (extracted_catalog_not_flattened (fun s => s) sample_read_text
           sample_parse (fun _ => false) (fun _ => "") (fun _ => "")
           sample_rglob sample_relative_to "proj" _ eq_refl).
Defined.

(** * Further properties of index build and retrieval *)

Import Pipeline.

Lemma list_getitem_reachable {A : Type} (l : list A) (idx : Z) :
  reachable (length l) idx ->
  exists x,
    list_getitem l idx = Ok x /\
    nth_error l (Z.to_nat (idx mod Z.of_nat (length l))) = Some x.
Proof.
  unfold reachable. intros [Hlo Hhi].
  destruct (Z.ltb_spec idx 0) as [Hneg | Hpos].
  - assert (Hmod : (idx mod Z.of_nat (length l) = idx + Z.of_nat (length l))%Z).
    { symmetry. apply (Z.mod_unique _ _ (-1)); lia. }
    rewrite Hmod. unfold list_getitem.
    destruct (Z.ltb_spec idx 0); [| lia].
    destruct (Z.leb_spec 0 (idx + Z.of_nat (length l))); [| lia].
    destruct (Z.ltb_spec (idx + Z.of_nat (length l)) (Z.of_nat (length l)));
      [| lia]. simpl.
    destruct (nth_error l (Z.to_nat (idx + Z.of_nat (length l))))
      as [x |] eqn:E; [now exists x |].
    apply nth_error_None in E. lia.
  - rewrite Z.mod_small by lia.
    apply list_getitem_position. lia.
Qed.

Lemma list_getitem_unreachable {A : Type} (l : list A) (idx : Z) :
  ~ reachable (length l) idx ->
  list_getitem l idx = Raise (IndexError "list index out of range").
Proof.
  unfold reachable, list_getitem. intro H.
  destruct (Z.ltb_spec idx 0);
    match goal with
    | |- context [(0 <=? ?i)%Z] => destruct (Z.leb_spec 0 i)
    end;
    match goal with
    | |- context [(?i <? ?n)%Z] => destruct (Z.ltb_spec i n)
    end; simpl; try reflexivity; lia.
Qed.

Lemma list_getitem_cases {A : Type} (l : list A) (idx : Z) :
  (exists x, list_getitem l idx = Ok x) \/
  list_getitem l idx = Raise (IndexError "list index out of range").
Proof.
  unfold list_getitem.
  destruct ((0 <=? _)%Z && _)%bool; [| now right].
  destruct (nth_error l _); [left; eauto | now right].
Qed.

Lemma retrieve_loop_wraps (metadata : list document) (row : list Z) :
  Forall (reachable (length metadata)) row ->
  forall results,
  exists found,
    for_each (fun results idx =>
                d <- list_getitem metadata idx ;; Ok (results ++ [d]))
      row results = Ok (results ++ found) /\
    Forall2 (fun idx d =>
               nth_error metadata
                 (Z.to_nat (idx mod Z.of_nat (length metadata))) = Some d)
      row found.
Proof.
  induction 1 as [| idx row Hidx _ IH]; intro results; simpl.
  - exists []. now rewrite app_nil_r.
  - destruct (list_getitem_reachable metadata idx Hidx) as [d [Hd Hn]].
    rewrite Hd. simpl.
    destruct (IH (results ++ [d])) as [found [Hf Hall]].
    exists (d :: found). rewrite Hf, <- app_assoc. split; [reflexivity |].
    now constructor.
Qed.

Lemma retrieve_loop_raises (metadata : list document) (row : list Z) :
  Exists (fun idx => ~ reachable (length metadata) idx) row ->
  forall results,
  for_each (fun results idx =>
              d <- list_getitem metadata idx ;; Ok (results ++ [d]))
    row results = Raise (IndexError "list index out of range").
Proof.
  induction 1 as [idx row Hidx | idx row _ IH]; intro results; simpl.
  - now rewrite (list_getitem_unreachable metadata idx Hidx).
  - destruct (list_getitem_cases metadata idx) as [[d Hd] | Hd];
      rewrite Hd; simpl; [apply IH | reflexivity].
Qed.

Section Retrieval.

Variable scalar : Type.
Variable encode : list json -> list (vector scalar).
Variable to_float32 : scalar -> scalar.
Variable search :
  flat_index scalar -> list (vector scalar) -> nat -> list (list Z).

Let labels (index : flat_index scalar) (query : string) (top_k : nat) :=
  list_getitem
    (search index (astype_float32 scalar to_float32 (encode [JStr query]))
       top_k) 0.

(** X22.  A label the search returns is used as a Python list index: a
    label from [-n] up to [n - 1], for [n] metadata entries, is answered
    with the entry at the label modulo [n], so the filler [-1] of a short
    result row is answered with the last document; the results come in the
    order of the labels, one per label. *)
Theorem retrieve_wraps_labels :
  forall index docs query top_k row,
  labels index query top_k = Ok row ->
  Forall (reachable (length docs)) row ->
  exists results,
    retrieve scalar encode to_float32 search
      (mk_store scalar (Some index) (Some docs)) query top_k = Ok results /\
    Forall2 (fun idx d =>
               nth_error docs (Z.to_nat (idx mod Z.of_nat (length docs)))
               = Some d) row results.
Proof.
  intros index docs query top_k row Hrow Hall. subst labels.
  unfold retrieve. cbn [index_file meta_file bind]. simpl in Hrow.
  rewrite Hrow. cbn [bind].
  destruct (retrieve_loop_wraps docs row Hall []) as [found [Hf H2]].
  exists found. now split.
Qed.

(** X23.  One label out of reach, at or past the number of metadata
    entries or below its negation, makes the whole retrieval raise
    [IndexError]: no partial result list is returned. *)
Theorem retrieve_out_of_range :
  forall index docs query top_k row,
  labels index query top_k = Ok row ->
  Exists (fun idx => ~ reachable (length docs) idx) row ->
  retrieve scalar encode to_float32 search
    (mk_store scalar (Some index) (Some docs)) query top_k
  = Raise (IndexError "list index out of range").
Proof.
  intros index docs query top_k row Hrow Hex. subst labels.
  unfold retrieve. cbn [index_file meta_file bind]. simpl in Hrow.
  rewrite Hrow. cbn [bind].
  now apply retrieve_loop_raises.
Qed.

(** X24.  With no document to embed (the encoder returning no row for no
    text) the index build raises [IndexError] before anything is written;
    this is what happens on an empty catalog. *)
Theorem build_index_without_documents :
  encode [] = [] ->
  forall files,
  build_index scalar encode to_float32 [] files
  = Raise (IndexError "tuple index out of range") /\
  build_index_from scalar encode to_float32 (JDict []) files
  = Raise (IndexError "tuple index out of range") /\
  ensure_index scalar encode to_float32 (JDict [])
    (mk_store scalar None (meta_file scalar files))
  = Raise (IndexError "tuple index out of range").
Proof.
  intros Hempty files.
  unfold ensure_index, build_index_from, build_index. simpl.
  rewrite Hempty. now repeat split.
Qed.

(** X26.  The start-up check looks at the index file alone: when it is
    there, nothing is rebuilt whatever the catalog holds now, and when the
    metadata file is missing beside it every retrieval raises. *)
Theorem ensure_index_keeps_existing :
  forall data index metadata,
  ensure_index scalar encode to_float32 data
    (mk_store scalar (Some index) metadata)
  = Ok (mk_store scalar (Some index) metadata) /\
  (forall query top_k,
     metadata = None ->
     exists msg,
       (files <- ensure_index scalar encode to_float32 data
                   (mk_store scalar (Some index) metadata) ;;
        retrieve scalar encode to_float32 search files query top_k)
       = Raise (OSError msg)).
Proof.
  intros data index metadata. split; [reflexivity |].
  intros query top_k ->. eexists. reflexivity.
Qed.

(** The embedding service is order-preserving. *)
Variable embed : json -> vector scalar.
Hypothesis encode_order_preserving :
  forall texts, encode texts = map embed texts.

(** X25.  From a catalog with source text to an answer: when no index
    exists, start-up builds one over the flattened catalog, keeps the
    flattened documents as metadata and embeds document [i] at position
    [i]; a retrieval whose labels are positions then returns the flattened
    documents at those positions. *)
Theorem sourced_catalog_end_to_end :
  forall c metadata,
  flatten c <> [] ->
  exists index,
    ensure_index scalar encode to_float32 (json_of_sourced_catalog c)
      (mk_store scalar None metadata)
    = Ok (mk_store scalar (Some index) (Some (flatten c))) /\
    vectors scalar index
    = map (fun d => map to_float32 (embed (text d))) (flatten c) /\
    (forall query top_k row,
       labels index query top_k = Ok row ->
       Forall (fun idx => (0 <= idx < Z.of_nat (length (flatten c)))%Z) row ->
       exists results,
         retrieve scalar encode to_float32 search
           (mk_store scalar (Some index) (Some (flatten c))) query top_k
         = Ok results /\
         Forall2 (fun idx d => nth_error (flatten c) (Z.to_nat idx) = Some d)
           row results).
Proof.
  intros c metadata Hne.
  unfold ensure_index, build_index_from. cbn [index_file].
  rewrite build_documents_sourced. cbn [bind].
  unfold build_index, astype_float32.
  rewrite encode_order_preserving, !map_map.
  match goal with
  | |- context [shape1 ?s ?rows] =>
      assert (Hs : exists n, shape1 s rows = Ok n)
        by (destruct (flatten c); [contradiction | eexists; reflexivity]);
      destruct Hs as [n Hs]; rewrite Hs
  end.
  cbn [bind meta_file index_file].
  eexists. split; [reflexivity |]. cbn [vectors]. split; [reflexivity |].
  intros query top_k row Hrow Hpos. subst labels.
  unfold retrieve. cbn [index_file meta_file bind].
  unfold astype_float32 in Hrow. unfold astype_float32.
  rewrite Hrow. cbn [bind].
  destruct (retrieve_loop (flatten c) row Hpos []) as [found [Hf H2]].
  exists found. now split.
Qed.

End Retrieval.

Lemma retrieve_wraps_labels_witness :
  retrieve Z (map sample_embed) (fun x => x) filler_search
    (mk_store Z (Some (mk_flat_index Z 2 [])) (Some sample_docs)) "class" 2
  = Ok sample_docs.
Proof.
  destruct (retrieve_wraps_labels Z (map sample_embed) (fun x => x)
              filler_search (mk_flat_index Z 2 []) sample_docs "class" 2
              [0%Z; (-1)%Z] eq_refl) as [results [Hr H2]].
  - repeat constructor; simpl; lia.
  - rewrite Hr. f_equal.
    inversion H2 as [| ? d0 ? l0 H0 H2']; subst.
    inversion H2' as [| ? d1 ? l1 H1 H2'']; subst.
    inversion H2''; subst.
    simpl in H0, H1. now inversion H0; inversion H1.
Defined.

Lemma retrieve_out_of_range_witness :
  retrieve Z (map sample_embed) (fun x => x) stray_search
    (mk_store Z (Some (mk_flat_index Z 2 [])) (Some sample_docs)) "class" 2
  = Raise (IndexError "list index out of range").
Proof.
  apply (retrieve_out_of_range Z (map sample_embed) (fun x => x)
           stray_search (mk_flat_index Z 2 []) sample_docs "class" 2
           [0%Z; 2%Z] eq_refl).
  apply Exists_cons_tl. apply Exists_cons_hd.
  unfold reachable. simpl. lia.
Defined.

Lemma build_index_without_documents_witness :
  build_index_from Z (map sample_embed) (fun x => x) (JDict []) no_files
  = Raise (IndexError "tuple index out of range").
Proof.
  apply (build_index_without_documents Z (map sample_embed) (fun x => x)
           eq_refl no_files).
Defined.

Lemma ensure_index_keeps_existing_witness :
  exists msg,
    (files <- ensure_index Z (map sample_embed) (fun x => x)
                (json_of_sourced_catalog sample_sourced_catalog)
                (mk_store Z (Some (mk_flat_index Z 2 [])) None) ;;
     retrieve Z (map sample_embed) (fun x => x) sample_search files "class" 2)
    = Raise (OSError msg).
Proof.
  apply (proj2 (ensure_index_keeps_existing Z (map sample_embed) (fun x => x)
                  sample_search
                  (json_of_sourced_catalog sample_sourced_catalog)
                  (mk_flat_index Z 2 []) None) "class" 2 eq_refl).
Defined.

Lemma sourced_catalog_end_to_end_witness :
  exists index,
    ensure_index Z (map sample_embed) (fun x => x)
      (json_of_sourced_catalog sample_sourced_catalog) no_files
    = Ok (mk_store Z (Some index) (Some (flatten sample_sourced_catalog))) /\
    length (vectors Z index) = 3.
Proof.
  destruct (sourced_catalog_end_to_end Z (map sample_embed) (fun x => x)
              sample_search sample_embed (fun texts => eq_refl)
              sample_sourced_catalog None) as [index [Hb [Hv _]]];
    [discriminate |].
  exists index. split; [exact Hb |]. rewrite Hv. reflexivity.
Defined.
